(** * SNIP-12 typed-data hashing ([src/utils/typedData.ts])

    A shallow embedding of the typed-data encoder of starknet.js and the
    properties of its revision detection, dependency resolution, type
    signature, value encoding and message hash.

    Conventions of the embedding.
    - A JS string is a [string]: a sequence of code units below 256.
    - A JS value of type [unknown] is a [value]; [VNum] holds the integral
      Number values, [VObj] lists the own enumerable properties of an object
      in JS enumeration order, each key once.
    - A read [o[key]] of a plain object sees the own properties of [o] and,
      under a name [o] does not own, the members of [Object.prototype]:
      [types[type]] is true of [toString] in every universe, and
      [data.constructor] is a function in every message.  Such a member is a
      [VNative]; what the prototypes of arrays, strings, numbers and
      functions answer varies with the engine and is one of the parameters.
    - A [throw] is an [error]; a function whose recursion the source does not
      bound takes a fuel argument and answers "out of fuel" where the JS
      engine would overflow its stack.
    - The collaborators imported from other modules (hash primitives, hex
      conversion, short-string packing, Merkle tree) are the fields of one
      record, [Collaborators]; every definition takes it as a parameter. *)

From Stdlib Require Import ZArith Ascii String DecimalString List Bool Lia Sorted.
From stdpp Require Import base option gmap strings.
Import ListNotations.
Local Open Scope string_scope.
Local Open Scope Z_scope.

(** ** JS strings *)

Module JsString.

(** [s[s.length - 1]] *)
Fixpoint lastChar (s : string) : option ascii :=
  match s with
  | EmptyString => None
  | String c EmptyString => Some c
  | String _ r => lastChar r
  end.

(** [s.slice(0, -1)] *)
Fixpoint dropLast (s : string) : string :=
  match s with
  | EmptyString => EmptyString
  | String _ EmptyString => EmptyString
  | String c r => String c (dropLast r)
  end.

(** [s.endsWith(c)], which is also [s[s.length - 1] === c]. *)
Definition endsWith (s : string) (c : ascii) : bool :=
  match lastChar s with
  | Some d => Ascii.eqb d c
  | None => false
  end.

(** [s.slice(1, -1)] *)
Definition slice1m1 (s : string) : string :=
  match s with
  | EmptyString => EmptyString
  | String _ r => dropLast r
  end.

(** The characters the regular expression dot refuses. *)
Definition isLineTerminator (c : ascii) : bool :=
  Ascii.eqb c "010"%char || Ascii.eqb c "013"%char.

Fixpoint noLineTerminator (s : string) : bool :=
  match s with
  | EmptyString => true
  | String c r => negb (isLineTerminator c) && noLineTerminator r
  end.

(** [s.match(/^\(.*\)$/)] as a truth value. *)
Definition isParenthesized (s : string) : bool :=
  match s with
  | String "("%char r =>
      match r with
      | EmptyString => false
      | _ => endsWith r ")"%char && noLineTerminator (dropLast r)
      end
  | _ => false
  end.

(** [s.split(c)] *)
Fixpoint split (c : ascii) (s : string) : list string :=
  match s with
  | EmptyString => [EmptyString]
  | String a r =>
      if Ascii.eqb a c then EmptyString :: split c r
      else match split c r with
           | h :: t => String a h :: t
           | [] => [String a EmptyString]
           end
  end.

(** [l.join(sep)] on an array of strings. *)
Fixpoint join (sep : string) (l : list string) : string :=
  match l with
  | [] => EmptyString
  | [x] => x
  | x :: r => x ++ sep ++ join sep r
  end.

(** [l.includes(x)] on an array of strings. *)
Definition includes (x : string) (l : list string) : bool :=
  existsb (String.eqb x) l.

(** [l.sort()]: ascending code-unit order; an insertion sort, which is
    stable as the engine's sort is. *)
Fixpoint insert (x : string) (l : list string) : list string :=
  match l with
  | [] => [x]
  | y :: r => if String.leb x y then x :: l else y :: insert x r
  end.

Fixpoint sort (l : list string) : list string :=
  match l with
  | [] => []
  | x :: r => insert x (sort r)
  end.

End JsString.

(** ** JS values *)

#[local] Set Warnings "-register-all".

(** The values of a document, and [VNative id]: a built-in object of the
    engine, which no document holds and a read of an inherited property
    gives.  It is a function, or [Object.prototype] itself under the name
    [__proto__]: an object that is not an array, owns no enumerable
    property and converts to no number. *)
Inductive value : Type :=
| VUndefined
| VNull
| VBool (b : bool)
| VNum (n : Z)
| VBigInt (n : Z)
| VStr (s : string)
| VArr (items : list value)
| VObj (props : list (string * value))
| VNative (id : string).

(** ** Data model ([src/types/typedData.ts]) *)

Inductive Revision : Type := ACTIVE | LEGACY.

(** [StarknetType]: [{ name, type, contains? }]. *)
Record StarknetType : Type := mkType {
  f_name : string;
  f_type : string;
  f_contains : option string;
}.

(** [TypedData['types']] *)
Abbreviation Types := (gmap string (list StarknetType)).

Definition field (n t : string) : StarknetType := mkType n t None.

(** ** Errors and outcomes *)

(** What the module throws: its own [Error]s by message, the assertion
    failures, the engine's [TypeError] and [SyntaxError], and whatever a
    collaborator throws. *)
Inductive error : Type :=
| SchemaMismatch                                  (* Typed data does not match JSON schema *)
| MissingData (fieldName : string)                (* Cannot encode data: missing data for ... *)
| OutOfBounds (v : Z) (type : string) (min max : Z)  (* ... is out of bounds [min, max] *)
| TypeMismatch (type : string) (data : value)     (* Type mismatch for ... *)
| UnsupportedType (type : string)                 (* Unsupported type: ... *)
| NotMerkleTree (key : string)                    (* ... is not a merkle tree *)
| MerkleContainsArray (key : string)              (* Merkle tree contain property must not be an array ... *)
| InvalidBigNumberish (data : value)              (* Invalid BigNumberish: ... *)
| TypeError
| SyntaxError
| CollaboratorError (who : string).

Inductive outcome (A : Type) : Type :=
| Return (a : A)
| Throw (e : error)
| OutOfFuel.
Arguments Return {A} a.
Arguments Throw {A} e.
Arguments OutOfFuel {A}.

#[global] Instance outcome_ret : MRet outcome := fun A a => Return a.
#[global] Instance outcome_bind : MBind outcome := fun A B f m =>
  match m with
  | Return a => f a
  | Throw e => Throw e
  | OutOfFuel => OutOfFuel
  end.

#[global] Instance outcome_fmap : FMap outcome := fun A B f m =>
  match m with
  | Return a => Return (f a)
  | Throw e => Throw e
  | OutOfFuel => OutOfFuel
  end.

(** A collaborator's answer; [None] is its exception. *)
Definition call {A : Type} (who : string) (r : option A) : outcome A :=
  match r with
  | Some a => Return a
  | None => Throw (CollaboratorError who)
  end.

(** [l.map(f)] with a callback that may throw; the callback sees the index. *)
Fixpoint mapIndexedM {A B : Type} (f : nat -> A -> outcome B) (i : nat) (l : list A)
    : outcome (list B) :=
  match l with
  | [] => Return []
  | x :: r => y ← f i x; ys ← mapIndexedM f (S i) r; Return (y :: ys)
  end.

Definition mapM {A B : Type} (f : A -> outcome B) (l : list A) : outcome (list B) :=
  mapIndexedM (fun _ => f) O l.

(** [l.reduce(f, init)] with a callback that may throw. *)
Fixpoint reduceO {A B : Type} (f : B -> A -> outcome B) (l : list A) (init : B) : outcome B :=
  match l with
  | [] => Return init
  | x :: r => b ← f init x; reduceO f r b
  end.

(** ** Collaborators and constants *)

(** [ByteArray] of [./calldata/byteArray]. *)
Module ByteArray.
Record t : Type := mk {
  data : list value;
  pending_word : value;
  pending_word_len : Z;
}.
End ByteArray.

(** What the module imports and this development does not define: the
    functions of [./hash], [./merkle], [./num], [./shortString] and
    [./calldata/byteArray], the field prime of [../constants] and the two
    members of the [TypedDataRevision] enumeration of [../types].  An
    answer [None] is an exception of the collaborator.

    The last field is the engine's: [builtinProperty v key] is what [v[key]]
    gives through the prototype of an array, a string, a number, a boolean
    or a bigint [v], under a [key] that is no index and not [length], and
    what a built-in object [v] gives under any key; [None] is the
    [TypeError] of an accessor that refuses the read. *)
Record Collaborators : Type := mkCollaborators {
  PRIME : Z;
  revisionValue : Revision -> value;
  computePedersenHash : value -> value -> option string;
  computePedersenHashOnElements : list value -> option string;
  computePoseidonHash : value -> value -> option string;
  computePoseidonHashOnElements : list value -> option string;
  getSelectorFromName : value -> option string;
  merkleRoot : list value -> (value -> value -> option string) -> option string;
  isHex : value -> bool;
  toHex : value -> option string;
  encodeShortString : string -> option string;
  byteArrayFromString : value -> option ByteArray.t;
  builtinProperty : value -> string -> option value;
}.
Existing Class Collaborators.

(** ** The engine's operations on values *)

Module Js.

(** [Boolean(v)] *)
Definition truthy (v : value) : bool :=
  match v with
  | VUndefined | VNull => false
  | VBool b => b
  | VNum n | VBigInt n => negb (n =? 0)
  | VStr s => negb (String.eqb s "")
  | VArr _ | VObj _ | VNative _ => true
  end.

(** [v === w] where [w] is a primitive: objects are equal by identity
    only, and no object of a document is a constant of the module. *)
Definition strictEq (v w : value) : bool :=
  match v, w with
  | VUndefined, VUndefined | VNull, VNull => true
  | VBool a, VBool b => Bool.eqb a b
  | VNum a, VNum b | VBigInt a, VBigInt b => a =? b
  | VStr a, VStr b => String.eqb a b
  | _, _ => false
  end.

(** [v ?? w] *)
Definition nullish (v : value) : bool :=
  match v with
  | VUndefined | VNull => true
  | _ => false
  end.

Definition decimal (n : Z) : string := NilZero.string_of_int (Z.to_int n).

(** The property key an optional string is converted to. *)
Definition keyOf (k : option string) : string := default "undefined" k.

Definition isDigit (c : ascii) : bool :=
  let n := nat_of_ascii c in (48 <=? n)%nat && (n <=? 57)%nat.

(** The array index a property key denotes, if it is a canonical one. *)
Definition indexOfKey (key : string) : option nat :=
  match key with
  | EmptyString => None
  | String "0"%char EmptyString => Some O
  | String "0"%char _ => None
  | _ => if forallb isDigit (list_ascii_of_string key)
         then Some (fold_left (fun acc c => (10 * acc + (nat_of_ascii c - 48))%nat)
                              (list_ascii_of_string key) O)
         else None
  end.

Fixpoint assoc (key : string) (props : list (string * value)) : option value :=
  match props with
  | [] => None
  | (k, v) :: r => if String.eqb k key then Some v else assoc key r
  end.

(** The property names of [Object.prototype]: every plain object answers
    under them, whether it owns them or not. *)
Definition objectPrototypeNames : list string :=
  ["constructor"; "hasOwnProperty"; "isPrototypeOf"; "propertyIsEnumerable";
   "toLocaleString"; "toString"; "valueOf"; "__proto__";
   "__defineGetter__"; "__defineSetter__"; "__lookupGetter__"; "__lookupSetter__"].

Definition inheritedName (key : string) : bool :=
  JsString.includes key objectPrototypeNames.

(** A read the engine's built-in objects answer. *)
Definition builtin {ext : Collaborators} (v : value) (key : string) : outcome value :=
  match builtinProperty ext v key with
  | Some x => Return x
  | None => Throw TypeError
  end.

(** [v[key]]: reading a property of [null] or [undefined] is a
    [TypeError]; a plain object answers with its own property, else with
    the member of [Object.prototype] of that name, else with [undefined];
    an array and a string own their indices and [length]. *)
Definition getProperty {ext : Collaborators} (v : value) (key : string) : outcome value :=
  match v with
  | VUndefined | VNull => Throw TypeError
  | VObj props =>
      Return (default (if inheritedName key then VNative key else VUndefined)
                      (assoc key props))
  | VArr items =>
      if String.eqb key "length" then Return (VNum (Z.of_nat (length items)))
      else match indexOfKey key with
           | Some i => Return (nth i items VUndefined)
           | None => builtin v key
           end
  | VStr s =>
      if String.eqb key "length" then Return (VNum (Z.of_nat (String.length s)))
      else match indexOfKey key with
           | Some i => match String.get i s with
                       | Some c => Return (VStr (String c EmptyString))
                       | None => Return VUndefined
                       end
           | None => builtin v key
           end
  | VBool _ | VNum _ | VBigInt _ | VNative _ => builtin v key
  end.

Definition indexed {A : Type} (f : A -> value) (l : list A) : list (string * value) :=
  imap (fun i x => (decimal (Z.of_nat i), f x)) l.

(** [Object.entries(v)] *)
Definition entries (v : value) : outcome (list (string * value)) :=
  match v with
  | VUndefined | VNull => Throw TypeError
  | VObj props => Return props
  | VArr items => Return (indexed id items)
  | VStr s => Return (indexed (fun c => VStr (String c EmptyString)) (list_ascii_of_string s))
  | VBool _ | VNum _ | VBigInt _ | VNative _ => Return []
  end.

(** [v.map(...)]: only an array has the method. *)
Definition asArray (v : value) : outcome (list value) :=
  match v with
  | VArr items => Return items
  | _ => Throw TypeError
  end.

(** *** [BigInt(v)] *)

Definition isWhiteSpace (c : ascii) : bool :=
  let n := nat_of_ascii c in
  ((9 <=? n)%nat && (n <=? 13)%nat) || (n =? 32)%nat || (n =? 160)%nat.

Fixpoint trimStart (s : string) : string :=
  match s with
  | String c r => if isWhiteSpace c then trimStart r else s
  | EmptyString => EmptyString
  end.

Fixpoint trimEnd (s : string) : string :=
  match s with
  | EmptyString => EmptyString
  | String c r =>
      match trimEnd r with
      | EmptyString => if isWhiteSpace c then EmptyString else String c EmptyString
      | r' => String c r'
      end
  end.

Definition digitValue (c : ascii) : option Z :=
  let n := Z.of_nat (nat_of_ascii c) in
  if (48 <=? n) && (n <=? 57) then Some (n - 48)
  else if (97 <=? n) && (n <=? 122) then Some (n - 87)
  else if (65 <=? n) && (n <=? 90) then Some (n - 55)
  else None.

Fixpoint digits (base : Z) (s : string) (acc : Z) : option Z :=
  match s with
  | EmptyString => Some acc
  | String c r =>
      match digitValue c with
      | Some d => if d <? base then digits base r (acc * base + d) else None
      | None => None
      end
  end.

Definition natural (base : Z) (s : string) : option Z :=
  match s with
  | EmptyString => None
  | _ => digits base s 0
  end.

(** [StringToBigInt]: blank is zero; a sign goes with decimal digits
    only; [0x], [0o] and [0b] introduce the other bases. *)
Definition stringToBigInt (s : string) : option Z :=
  match trimEnd (trimStart s) with
  | EmptyString => Some 0
  | String "0"%char (String x r) as t =>
      if Ascii.eqb x "x"%char || Ascii.eqb x "X"%char then natural 16 r
      else if Ascii.eqb x "o"%char || Ascii.eqb x "O"%char then natural 8 r
      else if Ascii.eqb x "b"%char || Ascii.eqb x "B"%char then natural 2 r
      else natural 10 t
  | String "-"%char r => Z.opp <$> natural 10 r
  | String "+"%char r => natural 10 r
  | t => natural 10 t
  end.

(** [String(v)] for the elements of an array and the array itself; a
    Number prints in decimal (its magnitude is taken below [10^21], where
    the engine turns to the exponent notation); of the built-in objects,
    [Object.prototype] prints as an object and the others, functions, as
    V8 prints a built-in function. *)
Fixpoint toString (v : value) : string :=
  match v with
  | VUndefined => "undefined"
  | VNull => "null"
  | VBool true => "true"
  | VBool false => "false"
  | VNum n | VBigInt n => decimal n
  | VStr s => s
  | VArr items =>
      JsString.join ","
        (List.map (fun x => match x with
                            | VUndefined | VNull => EmptyString
                            | _ => toString x
                            end) items)
  | VObj _ => "[object Object]"
  | VNative id =>
      if String.eqb id "__proto__" then "[object Object]"
      else "function " ++ id ++ "() { [native code] }"
  end.

Definition BigInt (v : value) : outcome Z :=
  match v with
  | VUndefined | VNull => Throw TypeError
  | VBool b => Return (if b then 1 else 0)
  | VNum n | VBigInt n => Return n
  | VStr _ | VArr _ | VObj _ =>
      match stringToBigInt (toString v) with
      | Some n => Return n
      | None => Throw SyntaxError
      end
  | VNative _ => Throw SyntaxError
  end.

(** [typeof v === 'boolean'] *)
Definition isBoolean (v : value) : bool :=
  match v with
  | VBool _ => true
  | _ => false
  end.

End Js.


(** The members of the revision enumeration are usable as the source uses
    them: truthy (a resolved revision passes [Boolean]) and distinct. *)
Definition revisionsOk (ext : Collaborators) : Prop :=
  Js.truthy (revisionValue ext ACTIVE) = true /\
  Js.truthy (revisionValue ext LEGACY) = true /\
  Js.strictEq (revisionValue ext ACTIVE) (revisionValue ext LEGACY) = false /\
  Js.strictEq (revisionValue ext LEGACY) (revisionValue ext LEGACY) = true.


(** Modelled from the spec: [assert] of [./assert] is not under src/; the
    generic assertion utility throws its message when the condition fails. *)
Definition assert (condition : bool) (message : error) : outcome unit :=
  if condition then Return tt else Throw message.

(** Modelled from the spec: [../constants] is not under src/; the bounds
    are those of section 4.5, [RANGE_FELT] being [0, PRIME - 1]. *)
Definition RANGE_I128 : Z * Z := (- 2 ^ 127, 2 ^ 127 - 1).
Definition RANGE_U128 : Z * Z := (0, 2 ^ 128 - 1).
Definition RANGE_FELT (ext : Collaborators) : Z * Z := (0, PRIME ext - 1).

Record Context : Type := mkContext {
  parent : option string;
  key : option string;
}.

(** The default of the [ctx] parameter, [{}]. *)
Definition noContext : Context := mkContext None None.

Module Configuration.
Record t : Type := mk {
  domain : string;
  hashMethod : list value -> option string;
  hashMerkleMethod : value -> value -> option string;
  escapeTypeString : string -> string;
  presetTypes : Types;
}.
End Configuration.

Definition presetTypesTable : Types :=
  {[ "u256" := [field "low" "u128"; field "high" "u128"];
     "TokenAmount" := [field "token_address" "ContractAddress"; field "amount" "u256"];
     "NftId" := [field "collection_address" "ContractAddress"; field "token_id" "u256"] ]}.

(** [TypedData] as [validateTypedData] reads it: [types] may be missing,
    [message] is any value ([undefined] when missing), an absent
    [primaryType] validates as the empty one does; [domain] is an object. *)
Record TypedData : Type := mkTypedData {
  td_types : option Types;
  td_primaryType : string;
  td_domain : list (string * value);
  td_message : value;
}.

(** The double quote. *)
Definition quote : ascii := "034"%char.

(** ** Dependencies of a type *)

(** [key in types], and [types[key]] as a truth value: [key] is declared,
    or it is a name every object inherits. *)
Definition hasType (types : Types) (key : string) : bool :=
  bool_decide (is_Some (types !! key)) || Js.inheritedName key.

(** The rewriting of the type name at the head of [getDependencies]. *)
Definition normalizeType (type contains : string) (revision : Revision) : string :=
  if JsString.endsWith type "*"%char then JsString.dropLast type
  else match revision with
       | ACTIVE =>
           if String.eqb type "enum" then contains
           else if JsString.isParenthesized type then JsString.slice1m1 type
           else type
       | LEGACY => type
       end.

(** One step of the reducer of [getDependencies], given the result of the
    recursive call. *)
Definition addNew (previous found : list string) : list string :=
  (previous ++ List.filter (fun dependency => negb (JsString.includes dependency previous)) found)%list.

(** [getDependencies(types, type, dependencies, contains, revision)].
    Past the guard [types[type]] is the field list of a declared type, or
    a member of [Object.prototype], which has no [reduce]. *)
Fixpoint getDependencies (fuel : nat) (types : Types) (type : string)
    (dependencies : list string) (contains : string) (revision : Revision)
    : outcome (list string) :=
  match fuel with
  | O => OutOfFuel
  | S fuel' =>
      let type := normalizeType type contains revision in
      if JsString.includes type dependencies || negb (hasType types type)
      then Return dependencies
      else match types !! type with
           | None => Throw TypeError
           | Some fields =>
               rest ← reduceO
                        (fun previous t =>
                           found ← getDependencies fuel' types (f_type t) previous
                                     (default "" (f_contains t)) revision;
                           Return (addNew previous found))
                        fields [];
               Return (type :: rest)
           end
  end.

(** The reducer of [getDependencies] run over the fields of a type. *)
Definition fieldDependencies (fuel : nat) (types : Types) (fields : list StarknetType)
    (revision : Revision) : outcome (list string) :=
  reduceO
    (fun previous t =>
       found ← getDependencies fuel types (f_type t) previous
                 (default "" (f_contains t)) revision;
       Return (addNew previous found))
    fields [].

Section Encoder.

Context (ext : Collaborators).

Definition revisionConfiguration (revision : Revision) : Configuration.t :=
  match revision with
  | ACTIVE =>
      {| Configuration.domain := "StarknetDomain";
         Configuration.hashMethod := computePoseidonHashOnElements ext;
         Configuration.hashMerkleMethod := computePoseidonHash ext;
         Configuration.escapeTypeString := fun s => String quote (s ++ String quote EmptyString);
         Configuration.presetTypes := presetTypesTable |}
  | LEGACY =>
      {| Configuration.domain := "StarkNetDomain";
         Configuration.hashMethod := computePedersenHashOnElements ext;
         Configuration.hashMerkleMethod := computePedersenHash ext;
         Configuration.escapeTypeString := fun s => s;
         Configuration.presetTypes := ∅ |}
  end.

Definition assertRange (data : value) (type : string) (range : Z * Z) : outcome unit :=
  v ← Js.BigInt data;
  assert ((fst range <=? v) && (v <=? snd range))
         (OutOfBounds v type (fst range) (snd range)).

(** [domain.revision] *)
Definition revisionField (domain : list (string * value)) : value :=
  default VUndefined (Js.assoc "revision" domain).

Definition identifyRevision (types : Types) (domain : list (string * value))
    : option Revision :=
  if hasType types (Configuration.domain (revisionConfiguration ACTIVE))
     && Js.strictEq (revisionField domain) (revisionValue ext ACTIVE)
  then Some ACTIVE
  else if hasType types (Configuration.domain (revisionConfiguration LEGACY))
          && Js.strictEq
               (if Js.nullish (revisionField domain) then revisionValue ext LEGACY
                else revisionField domain)
               (revisionValue ext LEGACY)
  then Some LEGACY
  else None.

Definition getHex (v : value) : outcome string :=
  match toHex ext v with
  | Some h => Return h
  | None =>
      match v with
      | VStr s =>
          short ← call "encodeShortString" (encodeShortString ext s);
          call "toHex" (toHex ext (VStr short))
      | _ => Throw (InvalidBigNumberish v)
      end
  end.

(** [validateTypedData(data)] *)
Definition validateTypedData (typedData : TypedData) : bool :=
  Js.truthy (td_message typedData)
  && negb (String.eqb (td_primaryType typedData) "")
  && match td_types typedData with
     | Some types =>
         match identifyRevision types (td_domain typedData) with
         | Some revision => Js.truthy (revisionValue ext revision)
         | None => false
         end
     | None => false
     end.

Definition prepareSelector (selector : value) : outcome value :=
  if isHex ext selector then Return selector
  else VStr <$> call "getSelectorFromName" (getSelectorFromName ext selector).

Definition isMerkleTreeType (t : StarknetType) : bool :=
  String.eqb (f_type t) "merkletree".

(** [fields.find((t) => t.name === key)] together with its position,
    which is what [fields.indexOf] answers for the element found. *)
Fixpoint findField (key : string) (fields : list StarknetType) (i : nat)
    : option (nat * StarknetType) :=
  match fields with
  | [] => None
  | t :: r => if String.eqb (f_name t) key then Some (i, t) else findField key r (S i)
  end.

Definition getMerkleTreeType (types : Types) (ctx : Context) : outcome string :=
  match parent ctx, key ctx with
  | Some (String _ _ as p), Some (String _ _ as k) =>
      match types !! p with
      | None => Throw TypeError
      | Some parentType =>
          match findField k parentType O with
          | None => Throw TypeError
          | Some (_, merkleType) =>
              if negb (isMerkleTreeType merkleType) then Throw (NotMerkleTree k)
              else match f_contains merkleType with
                   | None => Throw TypeError
                   | Some c =>
                       if JsString.endsWith c "*"%char then Throw (MerkleContainsArray k)
                       else Return c
                   end
          end
      end
  | _, _ => Return "raw"
  end.

(** The type string of one field in [encodeType]. *)
Definition encodeFieldType (esc : string -> string) (targetType : string) : string :=
  if JsString.isParenthesized targetType
  then "(" ++ JsString.join ","
                (List.map (fun e => if String.eqb e "" then e else esc e)
                          (JsString.split ","%char (JsString.slice1m1 targetType)))
           ++ ")"
  else esc targetType.

Definition encodeField (revision : Revision) (t : StarknetType) : outcome string :=
  let esc := Configuration.escapeTypeString (revisionConfiguration revision) in
  targetType ←
    match String.eqb (f_type t) "enum", revision with
    | true, ACTIVE =>
        match f_contains t with
        | Some c => Return c
        | None => Throw TypeError
        end
    | _, _ => Return (f_type t)
    end;
  Return (esc (f_name t) ++ ":" ++ encodeFieldType esc targetType).

(** The block of one type of [newTypes] in [encodeType]. *)
Definition encodeDependency (allTypes : Types) (revision : Revision) (dependency : string)
    : outcome string :=
  let esc := Configuration.escapeTypeString (revisionConfiguration revision) in
  match allTypes !! dependency with
  | None => Throw TypeError
  | Some fields =>
      dependencyElements ← mapM (encodeField revision) fields;
      Return (esc dependency ++ "(" ++ JsString.join "," dependencyElements ++ ")")
  end.

(** [{ ...types, ...presetTypes }] for the active revision. *)
Definition allTypesOf (types : Types) (revision : Revision) : Types :=
  match revision with
  | ACTIVE => Configuration.presetTypes (revisionConfiguration revision) ∪ types
  | LEGACY => types
  end.

Definition encodeType (fuel : nat) (types : Types) (type : string) (revision : Revision)
    : outcome string :=
  let allTypes := allTypesOf types revision in
  found ← getDependencies fuel allTypes type [] "" revision;
  let newTypes :=
    match found with
    | [] => []
    | primary :: dependencies =>
        if String.eqb primary "" then [] else primary :: JsString.sort dependencies
    end in
  blocks ← mapM (encodeDependency allTypes revision) newTypes;
  Return (JsString.join "" blocks).

Definition getTypeHash (fuel : nat) (types : Types) (type : string) (revision : Revision)
    : outcome string :=
  encoded ← encodeType fuel types type revision;
  call "getSelectorFromName" (getSelectorFromName ext (VStr encoded)).

(** The shape of [encodeValue], the recursive call being a parameter. *)
Definition Encode : Type :=
  Types -> string -> value -> Context -> Revision -> outcome (string * value).

(** The reducer of [encodeData]: one field of the struct. *)
Definition encodeFieldWith (encodeValue : Encode) (types : Types) (type : string)
    (data : value) (revision : Revision)
    (accumulator : list string * list value) (field : StarknetType)
    : outcome (list string * list value) :=
  let '(ts, vs) := accumulator in
  value ← Js.getProperty data (f_name field);
  if Js.strictEq value VUndefined
     || (Js.strictEq value VNull && negb (String.eqb (f_type field) "enum"))
  then Throw (MissingData (f_name field))
  else
    let ctx := mkContext (Some type) (Some (f_name field)) in
    '(t, encodedValue) ← encodeValue types (f_type field) value ctx revision;
    Return (ts ++ [t], vs ++ [encodedValue])%list.

(** [types[type] ?? revisionConfiguration[revision].presetTypes[type]]
    where it is a field list: a type of the document, or else a preset. *)
Definition targetTypeOf (types : Types) (type : string) (revision : Revision)
    : option (list StarknetType) :=
  match types !! type with
  | Some fields => Some fields
  | None => Configuration.presetTypes (revisionConfiguration revision) !! type
  end.

(** [encodeData(types, type, data, revision)] over a given [encodeValue].
    Where [targetType] is no field list it is [undefined], whose [reduce]
    cannot be read, or a member of [Object.prototype], whose [reduce] is
    [undefined] and is called after the arguments, the type hash among
    them, are evaluated. *)
Definition encodeDataWith (encodeValue : Encode) (fuel : nat) (types : Types)
    (type : string) (data : value) (revision : Revision)
    : outcome (list string * list value) :=
  match targetTypeOf types type revision with
  | None =>
      if Js.inheritedName type
      then _ ← getTypeHash fuel types type revision; Throw TypeError
      else Throw TypeError
  | Some targetType =>
      typeHash ← getTypeHash fuel types type revision;
      reduceO (encodeFieldWith encodeValue types type data revision)
        targetType (["felt"], [VStr typeHash])
  end.

Definition getStructHashWith (encodeValue : Encode) (fuel : nat) (types : Types)
    (type : string) (data : value) (revision : Revision) : outcome string :=
  '(_, values) ← encodeDataWith encodeValue fuel types type data revision;
  call "hashMethod" (Configuration.hashMethod (revisionConfiguration revision) values).

(** A primitive value: [getHex] after the revision's check. *)
Definition scalar (type : string) (data : value) : outcome (string * value) :=
  h ← getHex data; Return (type, VStr h).

(** [encodeValue(types, type, data, ctx, revision)] *)
Fixpoint encodeValue (fuel : nat) (types : Types) (type : string) (data : value)
    (ctx : Context) (revision : Revision) : outcome (string * value) :=
  match fuel with
  | O => OutOfFuel
  | S fuel' =>
  let config := revisionConfiguration revision in
  let getStructHash := getStructHashWith (encodeValue fuel') fuel' in
  if hasType types type then
    h ← getStructHash types type data revision; Return (type, VStr h)
  else if hasType (Configuration.presetTypes config) type then
    h ← getStructHash (Configuration.presetTypes config) type data revision;
    Return (type, VStr h)
  else if JsString.endsWith type "*"%char then
    entries ← Js.asArray data;
    hashes ← mapM (fun entry =>
                     snd <$> encodeValue fuel' types (JsString.dropLast type) entry
                               noContext revision) entries;
    h ← call "hashMethod" (Configuration.hashMethod config hashes);
    Return (type, VStr h)
  else if String.eqb type "enum" then
    match revision with
    | ACTIVE =>
        entries ← Js.entries data;
        match entries with
        | [] => Throw TypeError
        | (variantKey, variantData) :: _ =>
            match types !! Js.keyOf (parent ctx) with
            | None | Some [] => Throw TypeError
            | Some (parentType :: _) =>
                match types !! Js.keyOf (f_contains parentType) with
                | None => Throw TypeError
                | Some enumType =>
                    match findField variantKey enumType O with
                    | None => Throw TypeError
                    | Some (variantIndex, variantType) =>
                        encodedSubtypes ←
                          mapIndexedM
                            (fun index subtype =>
                               if String.eqb subtype "" then Return (VStr subtype)
                               else
                                 subtypeData ←
                                   Js.getProperty variantData (Js.decimal (Z.of_nat index));
                                 snd <$> encodeValue fuel' types subtype subtypeData
                                           noContext revision)
                            O (JsString.split ","%char (JsString.slice1m1 (f_type variantType)));
                        h ← call "hashMethod"
                              (Configuration.hashMethod config
                                 (VNum (Z.of_nat variantIndex) :: encodedSubtypes));
                        Return (type, VStr h)
                    end
                end
            end
        end
    | LEGACY => scalar type data
    end
  else if String.eqb type "merkletree" then
    merkleTreeType ← getMerkleTreeType types ctx;
    structs ← Js.asArray data;
    structHashes ← mapM (fun struct =>
                           snd <$> encodeValue fuel' types merkleTreeType struct
                                     noContext revision) structs;
    root ← call "MerkleTree"
             (merkleRoot ext structHashes (Configuration.hashMerkleMethod config));
    Return ("felt", VStr root)
  else if String.eqb type "selector" then
    s ← prepareSelector data; Return ("felt", s)
  else if String.eqb type "string" then
    match revision with
    | ACTIVE =>
        byteArray ← call "byteArrayFromString" (byteArrayFromString ext data);
        let elements :=
          (VNum (Z.of_nat (length (ByteArray.data byteArray)))
             :: ByteArray.data byteArray
             ++ [ByteArray.pending_word byteArray;
                 VNum (ByteArray.pending_word_len byteArray)])%list in
        h ← call "hashMethod" (Configuration.hashMethod config elements);
        Return (type, VStr h)
    | LEGACY => scalar type data
    end
  else if String.eqb type "i128" then
    match revision with
    | ACTIVE =>
        value ← Js.BigInt data;
        _ ← assertRange (VBigInt value) type RANGE_I128;
        scalar type (VBigInt (if value <? 0 then PRIME ext + value else value))
    | LEGACY => scalar type data
    end
  else if String.eqb type "timestamp" || String.eqb type "u128" then
    _ ← match revision with
        | ACTIVE => assertRange data type RANGE_U128
        | LEGACY => Return tt
        end;
    scalar type data
  else if String.eqb type "felt" || String.eqb type "shortstring" then
    _ ← match revision with
        | ACTIVE => h ← getHex data; assertRange (VStr h) type (RANGE_FELT ext)
        | LEGACY => Return tt
        end;
    scalar type data
  else if String.eqb type "ClassHash" || String.eqb type "ContractAddress" then
    _ ← match revision with
        | ACTIVE => assertRange data type (RANGE_FELT ext)
        | LEGACY => Return tt
        end;
    scalar type data
  else if String.eqb type "bool" then
    _ ← match revision with
        | ACTIVE => assert (Js.isBoolean data) (TypeMismatch type data)
        | LEGACY => Return tt
        end;
    scalar type data
  else
    match revision with
    | ACTIVE => Throw (UnsupportedType type)
    | LEGACY => scalar type data
    end
  end.

Definition encodeData (fuel : nat) : Types -> string -> value -> Revision
    -> outcome (list string * list value) :=
  encodeDataWith (encodeValue fuel) fuel.

Definition getStructHash (fuel : nat) : Types -> string -> value -> Revision
    -> outcome string :=
  getStructHashWith (encodeValue fuel) fuel.

(** [getMessageHash(typedData, account)] *)
Definition getMessageHash (fuel : nat) (typedData : TypedData) (account : value)
    : outcome string :=
  if negb (validateTypedData typedData) then Throw SchemaMismatch
  else
    match td_types typedData with
    | None => Throw TypeError
    | Some types =>
        match identifyRevision types (td_domain typedData) with
        | None => Throw TypeError
        | Some revision =>
            let config := revisionConfiguration revision in
            prefix ← call "encodeShortString" (encodeShortString ext "StarkNet Message");
            domainHash ← getStructHash fuel types (Configuration.domain config)
                           (VObj (td_domain typedData)) revision;
            messageHash ← getStructHash fuel types (td_primaryType typedData)
                            (td_message typedData) revision;
            call "hashMethod"
              (Configuration.hashMethod config
                 [VStr prefix; VStr domainHash; account; VStr messageHash])
        end
    end.

End Encoder.

(** ** A toy instance of the collaborators, to run the encoder

    The hashes are symbolic: a digest is the text of the call that would
    compute it.  The prime is the field prime of Starknet, the members of
    the revision enumeration are the strings [1] and [0]; the built-in
    objects and the prototypes of arrays, strings and numbers answer
    [undefined] to every read. *)

Module Demo.

Definition hexDigit (n : Z) : ascii :=
  ascii_of_nat (Z.to_nat (if n <? 10 then 48 + n else 87 + n)).

Fixpoint hexDigits (fuel : nat) (n : Z) (acc : string) : string :=
  match fuel with
  | O => acc
  | S fuel' =>
      let acc' := String (hexDigit (n mod 16)) acc in
      if n <? 16 then acc' else hexDigits fuel' (n / 16) acc'
  end.

Definition hex (n : Z) : string :=
  "0x" ++ hexDigits (S (Z.to_nat (Z.log2 n))) n "".

Definition toHex (v : value) : option string :=
  match Js.BigInt v with
  | Return n => if 0 <=? n then Some (hex n) else None
  | _ => None
  end.

Definition hashOnElements (label : string) (l : list value) : option string :=
  Some (label ++ "[" ++ JsString.join "," (List.map Js.toString l) ++ "]").

Definition hashPair (label : string) (a b : value) : option string :=
  hashOnElements label [a; b].

Definition merkleRoot (leaves : list value) (h : value -> value -> option string)
    : option string :=
  match leaves with
  | [] => Some "0x0"
  | x :: r =>
      fold_left (fun acc y => match acc with
                              | Some a => h (VStr a) y
                              | None => None
                              end) r (Some (Js.toString x))
  end.

Definition isHex (v : value) : bool :=
  match Js.toString v with
  | String "0"%char (String "x"%char r) =>
      forallb (fun c => match Js.digitValue c with
                        | Some d => d <? 16
                        | None => false
                        end) (list_ascii_of_string r)
  | _ => false
  end.

Definition encodeShortString (s : string) : option string :=
  if (String.length s <=? 31)%nat
  then Some ("0x" ++ String.concat ""
                       (List.map (fun c => let n := Z.of_nat (nat_of_ascii c) in
                                           String (hexDigit (n / 16))
                                             (String (hexDigit (n mod 16)) ""))
                                 (list_ascii_of_string s)))
  else None.

Definition byteArrayFromString (v : value) : option ByteArray.t :=
  match v with
  | VStr s =>
      match encodeShortString s with
      | Some w => Some (ByteArray.mk [] (VStr w) (Z.of_nat (String.length s)))
      | None => None
      end
  | _ => None
  end.

Definition ext : Collaborators :=
  mkCollaborators
    (2 ^ 251 + 17 * 2 ^ 192 + 1)
    (fun r => match r with ACTIVE => VStr "1" | LEGACY => VStr "0" end)
    (hashPair "pedersen") (hashOnElements "pedersen")
    (hashPair "poseidon") (hashOnElements "poseidon")
    (fun v => Some ("selector[" ++ Js.toString v ++ "]"))
    merkleRoot isHex toHex encodeShortString byteArrayFromString
    (fun _ _ => Some VUndefined).

(** A struct with an array of structs and primitives. *)
Definition mailTypes : Types :=
  {[ "StarkNetDomain" := [field "name" "felt"; field "version" "felt"];
     "Mail" := [field "from" "Person"; field "to" "Person*"; field "contents" "felt"];
     "Person" := [field "name" "felt"; field "wallet" "felt"] ]}.

(** The enum example of the active revision. *)
Definition enumTypes : Types :=
  {[ "StarknetDomain" := [field "name" "shortstring"; field "revision" "shortstring"];
     "Example" := [mkType "someEnum" "enum" (Some "MyEnum")];
     "MyEnum" := [field "Variant 1" "()"; field "Variant 2" "(u128,u128*)"] ]}.

End Demo.

(** ** Notions used by the statements *)

(** A ranking of the type universe: whatever name a field of a declared
    type resolves to, if [types[name]] is true of it then it is declared and
    ranks below that type.  A universe whose dependency graph has no cycle,
    and in which no field names an undeclared property that every object
    inherits, has one: the length of the longest chain below each type.  A
    universe with a cycle has none. *)
Definition ranked (types : Types) (revision : Revision) (rank : string -> nat) : Prop :=
  map_Forall
    (fun name fields =>
       Forall (fun t =>
                 let m := normalizeType (f_type t) (default "" (f_contains t)) revision in
                 hasType types m = true ->
                 is_Some (types !! m) /\ (rank m < rank name)%nat)
              fields)
    types.

(** The result of [getDependencies] on a name ready for lookup, one level
    of fuel below. *)
Definition resolved (fuel : nat) (types : Types) (name : string)
    (dependencies : list string) (revision : Revision) : outcome (list string) :=
  if JsString.includes name dependencies || negb (hasType types name)
  then Return dependencies
  else match types !! name with
       | None => Throw TypeError
       | Some fields =>
           rest ← fieldDependencies fuel types fields revision;
           Return (name :: rest)
       end.

(** *** The validation of section 4.7, in the words of the specification

    "require non-empty message, primaryType, types, and a resolvable
    revision": a value is empty when it is missing, the empty string, or an
    object or array with nothing in it. *)
Definition isEmptyValue (v : value) : bool :=
  match v with
  | VUndefined | VNull | VStr EmptyString | VArr [] | VObj [] => true
  | _ => false
  end.

Definition validAsSpecified (ext : Collaborators) (typedData : TypedData) : bool :=
  negb (isEmptyValue (td_message typedData))
  && negb (String.eqb (td_primaryType typedData) "")
  && match td_types typedData with
     | Some types =>
         negb (bool_decide (types = ∅))
         && bool_decide (is_Some (identifyRevision ext types (td_domain typedData)))
     | None => false
     end.

(** A legacy document whose primary type has no field, with the empty
    message that goes with it. *)
Definition pingDocument : TypedData :=
  {| td_types := Some (<["Ping" := []]> Demo.mailTypes);
     td_primaryType := "Ping";
     td_domain := [("name", VStr "Demo"); ("version", VStr "1")];
     td_message := VObj [] |}.

(** A mail of the legacy revision. *)
Definition mailDocument : TypedData :=
  {| td_types := Some Demo.mailTypes;
     td_primaryType := "Mail";
     td_domain := [("name", VStr "Demo"); ("version", VStr "1")];
     td_message :=
       VObj [("from", VObj [("name", VStr "Cow"); ("wallet", VStr "0xc0")]);
             ("to", VArr [VObj [("name", VStr "Bob"); ("wallet", VStr "0xb0")]]);
             ("contents", VStr "Hello")] |}.

(** A document whose types declare neither domain type. *)
Definition noDomainDocument : TypedData :=
  {| td_types := Some {[ "Ping" := [field "n" "felt"] ]};
     td_primaryType := "Ping";
     td_domain := [("name", VStr "Demo")];
     td_message := VObj [("n", VNum 1)] |}.


(** A session whose [root] field is a Merkle tree of policies; [plain] is
    declared as a [felt], [nested] as a tree of arrays. *)
Definition sessionTypes : Types :=
  {[ "StarkNetDomain" := [field "name" "felt"];
     "Session" := [field "key" "felt";
                   mkType "root" "merkletree" (Some "Policy");
                   field "plain" "felt";
                   mkType "nested" "merkletree" (Some "Policy*")];
     "Policy" := [field "contractAddress" "felt"; field "selector" "selector"] ]}.

Definition policies : value :=
  VArr [VObj [("contractAddress", VStr "0x1"); ("selector", VStr "transfer")];
        VObj [("contractAddress", VStr "0x2"); ("selector", VStr "0xabc")]].

(** *** The type signature of section 4.3

    The string [encodeType] is specified to build, as a function of the
    ordered list of type names: one block per name, nothing between the
    blocks. *)

(** The type string a field is rendered from: the [contains] reference of
    an [enum] field of the active revision, the declared type otherwise. *)
Definition fieldTarget (revision : Revision) (t : StarknetType) : string :=
  match revision with
  | ACTIVE => if String.eqb (f_type t) "enum" then default "" (f_contains t) else f_type t
  | LEGACY => f_type t
  end.

(** An [enum] field of the active revision carries its [contains]. *)
Definition wellFormedField (revision : Revision) (t : StarknetType) : Prop :=
  revision = ACTIVE -> f_type t = "enum" -> is_Some (f_contains t).

Definition fieldString (ext : Collaborators) (revision : Revision) (t : StarknetType)
    : string :=
  let esc := Configuration.escapeTypeString (revisionConfiguration ext revision) in
  esc (f_name t) ++ ":" ++ encodeFieldType esc (fieldTarget revision t).

Definition blockOf (ext : Collaborators) (allTypes : Types) (revision : Revision)
    (name : string) : string :=
  let esc := Configuration.escapeTypeString (revisionConfiguration ext revision) in
  esc name ++ "("
    ++ JsString.join "," (List.map (fieldString ext revision) (default [] (allTypes !! name)))
    ++ ")".

Definition signature (ext : Collaborators) (allTypes : Types) (revision : Revision)
    (names : list string) : string :=
  String.concat "" (List.map (blockOf ext allTypes revision) names).

(** The character [c] does not occur in [s]. *)
Fixpoint lacks (c : ascii) (s : string) : bool :=
  match s with
  | EmptyString => true
  | String a r => negb (Ascii.eqb a c) && lacks c r
  end.

(** Section 4.3 in its own words on an [enum] field: "rendered using its
    variant-holder's tuple type string".  The variant holder is the type
    [contains] names; its tuple type strings are the type strings of its
    variants, rendered as tuples are. *)
Definition variantTupleStrings (ext : Collaborators) (types : Types) (t : StarknetType)
    : list string :=
  List.map (fun variant =>
              encodeFieldType (Configuration.escapeTypeString (revisionConfiguration ext ACTIVE))
                (f_type variant))
           (default [] (types !! Js.keyOf (f_contains t))).

(** A name between double quotes. *)
Definition quoted (s : string) : string := String quote (s ++ String quote EmptyString).

(** An outcome that is not the throw of [e]. *)
Definition never {A : Type} (e : error) (o : outcome A) : Prop := o <> Throw e.

(** The two errors only the top of the module throws: the schema
    mismatch of [getMessageHash] and the unsupported type of the active
    [encodeValue]. *)
Definition topLevelError (e : error) : Prop :=
  e = SchemaMismatch \/ exists type, e = UnsupportedType type.

(** The order [sort] sorts by. *)
Definition leS (a b : string) : Prop := String.leb a b = true.

(** [expands types revision fuel name rest]: [name] is declared and its
    fields resolve to [rest] within [fuel]. *)
Definition expands (types : Types) (revision : Revision) (fuel : nat) (name : string)
    (rest : list string) : Prop :=
  exists fields, types !! name = Some fields /\
                 fieldDependencies fuel types fields revision = Return rest.

(** The declared type a field resolves to in [getDependencies]. *)
Definition fieldTargetName (revision : Revision) (t : StarknetType) : string :=
  normalizeType (f_type t) (default "" (f_contains t)) revision.

(** A list of names that holds, with each declared type in it, the declared
    types the fields of that type resolve to. *)
Definition closedUnderFields (types : Types) (revision : Revision) (names : list string)
    : Prop :=
  forall name fields t,
    name ∈ names -> types !! name = Some fields -> t ∈ fields ->
    is_Some (types !! fieldTargetName revision t) ->
    fieldTargetName revision t ∈ names.

(** A universe that declares [u256] its own way. *)
Definition ownU256Types : Types :=
  <["u256" := [field "value" "felt"]]> Demo.mailTypes.

(** How a field of a struct was encoded: the value read from the message
    under the field's name, not [undefined], and the answer of
    [encodeValue] for it in the context of the struct and the field. *)
Definition encodedAs (ext : Collaborators) (fuel : nat) (types : Types) (type : string)
    (data : value) (revision : Revision) (field : StarknetType) (result : string * value)
    : Prop :=
  exists value,
    Js.getProperty data (f_name field) = Return value /\
    value <> VUndefined /\
    encodeValue ext fuel types (f_type field) value
      (mkContext (Some type) (Some (f_name field))) revision = Return result.

(** The tags the legacy revision takes for plain scalars although the
    active revision checks or decodes them. *)
Definition legacyOpaqueTags : list string :=
  ["enum"; "string"; "i128"; "timestamp"; "u128"; "felt"; "shortstring";
   "ClassHash"; "ContractAddress"; "bool"].

(** A universe that declares [u128] as a struct. *)
Definition ownU128Types : Types :=
  {[ "u128" := [field "limb" "felt"] ]}.

(** A struct with a field named as a member of [Object.prototype] is. *)
Definition cardTypes : Types :=
  {[ "StarkNetDomain" := [field "name" "felt"];
     "Card" := [field "name" "felt"; field "toString" "felt"] ]}.

(** A universe with a variant whose payload names two structs. *)
Definition pairTypes : Types :=
  {[ "Holder" := [field "one" "(A)"; field "two" "(A,B)"];
     "A" := [field "x" "felt"];
     "B" := [field "y" "felt"] ]}.

(** * Properties *)

Example BigInt_examples :
  Js.BigInt (VStr "-1") = Return (-1) /\ Js.BigInt (VStr " 0x1F ") = Return 31 /\
  Js.BigInt (VStr "") = Return 0 /\ Js.BigInt (VStr "-0x1") = Throw SyntaxError /\
  Js.BigInt (VStr "012") = Return 12 /\ Js.BigInt (VArr [VNum 5]) = Return 5 /\
  Js.BigInt (VObj []) = Throw SyntaxError /\ Js.BigInt (VStr "1n") = Throw SyntaxError.
Proof. vm_compute. repeat split. Qed.

Example hex_demo : Demo.hex 255 = "0xff" /\ Demo.hex 0 = "0x0" /\ Demo.hex 4096 = "0x1000".
Proof. vm_compute. repeat split. Qed.

Example encodeType_mail :
  encodeType Demo.ext 5 Demo.mailTypes "Mail" LEGACY
  = Return "Mail(from:Person,to:Person*,contents:felt)Person(name:felt,wallet:felt)".
Proof. vm_compute. reflexivity. Qed.

Example getDependencies_mail :
  getDependencies 5 Demo.mailTypes "Mail" [] "" LEGACY = Return ["Mail"; "Person"].
Proof. vm_compute. reflexivity. Qed.

(** ** Strings *)

Module JsStringFacts.
Import JsString.

Lemma lastChar_snoc s c : lastChar (s ++ String c "") = Some c.
Proof.
  induction s as [|a s IH]; [reflexivity|].
  simpl. rewrite IH. destruct s; reflexivity.
Qed.

Lemma dropLast_snoc s c : dropLast (s ++ String c "") = s.
Proof.
  induction s as [|a s IH]; [reflexivity|].
  simpl. rewrite IH. destruct s; reflexivity.
Qed.

Lemma endsWith_snoc s c : endsWith (s ++ String c "") c = true.
Proof. unfold endsWith. rewrite lastChar_snoc. apply Ascii.eqb_refl. Qed.

Lemma lastChar_dropLast s c : lastChar s = Some c -> s = dropLast s ++ String c "".
Proof.
  induction s as [|a s IH]; [discriminate|].
  destruct s as [|b s].
  - simpl. intros [= ->]. reflexivity.
  - intros H. specialize (IH H).
    transitivity (String a (dropLast (String b s) ++ String c "")).
    + f_equal. exact IH.
    + reflexivity.
Qed.

Lemma endsWith_inv s c : endsWith s c = true -> s = dropLast s ++ String c "".
Proof.
  unfold endsWith. destruct (lastChar s) as [d|] eqn:E; [|discriminate].
  intros H. apply Ascii.eqb_eq in H. subst d. apply lastChar_dropLast, E.
Qed.

Lemma includes_In x l : includes x l = true <-> x ∈ l.
Proof.
  unfold includes. rewrite existsb_exists, list_elem_of_In. split.
  - intros (y & Hy & E). apply String.eqb_eq in E. subst. exact Hy.
  - intros H. exists x. split; [exact H | apply String.eqb_refl].
Qed.

Lemma includes_false x l : includes x l = false <-> x ∉ l.
Proof.
  rewrite <- includes_In. destruct (includes x l); split; congruence.
Qed.

End JsStringFacts.

(** ** Outcomes *)

Lemma bind_Return {A B : Type} (a : A) (f : A -> outcome B) : Return a ≫= f = f a.
Proof. reflexivity. Qed.

Lemma bind_Return_inv {A B : Type} (m : outcome A) (f : A -> outcome B) (b : B) :
  m ≫= f = Return b -> exists a, m = Return a /\ f a = Return b.
Proof. destruct m as [a| |]; [eauto | discriminate | discriminate]. Qed.

Lemma reduceO_mono {A B : Type} (f g : B -> A -> outcome B) (l : list A) :
  (forall b x y, f b x = Return y -> g b x = Return y) ->
  forall init r, reduceO f l init = Return r -> reduceO g l init = Return r.
Proof.
  intros Hfg. induction l as [|x l IH]; intros init r; cbn [reduceO]; [auto|].
  intros H. apply bind_Return_inv in H. destruct H as (b & E & H).
  rewrite (Hfg _ _ _ E), bind_Return. apply IH, H.
Qed.

(** An invariant of the reducer carries over to its result. *)
Lemma reduceO_invariant {A B : Type} (P : B -> Prop) (f : B -> A -> outcome B) (l : list A) :
  (forall b x y, P b -> f b x = Return y -> P y) ->
  forall init r, P init -> reduceO f l init = Return r -> P r.
Proof.
  intros Hf. induction l as [|x l IH]; intros init r Hi; cbn [reduceO].
  - intros [= <-]. exact Hi.
  - intros H. apply bind_Return_inv in H. destruct H as (b & E & H).
    eapply IH; [|exact H]. eapply Hf; eauto.
Qed.

Lemma reduceO_returns {A B : Type} (f : B -> A -> outcome B) (l : list A) :
  (forall b x, x ∈ l -> exists y, f b x = Return y) ->
  forall init, exists r, reduceO f l init = Return r.
Proof.
  induction l as [|x l IH]; intros Hf init; cbn [reduceO]; [eauto|].
  destruct (Hf init x) as [b ->]; [left|]. rewrite bind_Return.
  apply IH. intros b' y Hy. apply Hf. right. exact Hy.
Qed.

(** ** Names every object inherits *)

Lemma hasType_declared types name : is_Some (types !! name) -> hasType types name = true.
Proof.
  intros H. unfold hasType. rewrite (bool_decide_eq_true_2 _ H). reflexivity.
Qed.

Lemma hasType_false types name :
  hasType types name = false <-> types !! name = None /\ Js.inheritedName name = false.
Proof.
  unfold hasType. rewrite orb_false_iff, bool_decide_eq_false, <- eq_None_not_Some.
  reflexivity.
Qed.

Lemma hasType_inherited types name : Js.inheritedName name = true -> hasType types name = true.
Proof. intros H. unfold hasType. rewrite H. apply orb_true_r. Qed.

(** Of a name no object inherits, [types[name]] is true when it is
    declared, and then only. *)
Lemma hasType_own types name :
  Js.inheritedName name = false ->
  hasType types name = true <-> is_Some (types !! name).
Proof.
  intros H. unfold hasType. rewrite H, orb_false_r. apply bool_decide_eq_true.
Qed.

Lemma hasType_own_false types name :
  Js.inheritedName name = false ->
  hasType types name = false <-> types !! name = None.
Proof. intros H. rewrite hasType_false. tauto. Qed.

Lemma hasType_empty name : Js.inheritedName name = false -> hasType ∅ name = false.
Proof. intros H. apply hasType_false. split; [apply lookup_empty | exact H]. Qed.

Lemma inheritedName_cases name :
  Js.inheritedName name = true -> name ∈ Js.objectPrototypeNames.
Proof. apply JsStringFacts.includes_In. Qed.

(** ** The dependency resolver *)

Section Dependencies.

Import JsString JsStringFacts.

Variable types : Types.
Variable revision : Revision.

#[local] Abbreviation expands := (expands types revision).

Lemma getDependencies_unfold fuel type dependencies contains :
  getDependencies (S fuel) types type dependencies contains revision
  = resolved fuel types (normalizeType type contains revision) dependencies revision.
Proof. reflexivity. Qed.

(** More fuel does not change an answer. *)
Lemma getDependencies_S fuel : forall type dependencies contains l,
  getDependencies fuel types type dependencies contains revision = Return l ->
  getDependencies (S fuel) types type dependencies contains revision = Return l.
Proof.
  induction fuel as [|fuel IH]; intros type dependencies contains l; [discriminate|].
  rewrite (getDependencies_unfold (S fuel)), getDependencies_unfold.
  unfold resolved.
  destruct (includes _ dependencies || _); [auto|].
  destruct (types !! _) as [fields|]; [|auto].
  unfold fieldDependencies. intros H.
  apply bind_Return_inv in H. destruct H as (rest & E & H).
  erewrite reduceO_mono; [exact H| |exact E].
  intros b x y F. cbv beta in F |- *.
  apply bind_Return_inv in F. destruct F as (found & F & G).
  rewrite (IH _ _ _ _ F). exact G.
Qed.

Lemma getDependencies_mono fuel fuel' type dependencies contains l :
  (fuel <= fuel')%nat ->
  getDependencies fuel types type dependencies contains revision = Return l ->
  getDependencies fuel' types type dependencies contains revision = Return l.
Proof.
  induction 1 as [|fuel' _ IH]; [auto|].
  intros H. apply getDependencies_S, IH, H.
Qed.

Lemma fieldDependencies_mono fuel fuel' fields rest :
  (fuel <= fuel')%nat ->
  fieldDependencies fuel types fields revision = Return rest ->
  fieldDependencies fuel' types fields revision = Return rest.
Proof.
  intros Hle. unfold fieldDependencies. apply reduceO_mono.
  intros b x y F. cbv beta in F |- *.
  apply bind_Return_inv in F. destruct F as (found & F & G).
  rewrite (getDependencies_mono _ _ _ _ _ _ Hle F). exact G.
Qed.

Lemma expands_mono fuel fuel' name rest :
  (fuel <= fuel')%nat -> expands fuel name rest -> expands fuel' name rest.
Proof.
  intros Hle (fields & Hf & Hr). exists fields. split; [exact Hf|].
  eapply fieldDependencies_mono; eauto.
Qed.

Lemma expands_functional fuel name rest rest' :
  expands fuel name rest -> expands fuel name rest' -> rest = rest'.
Proof. intros (f1 & H1 & R1) (f2 & H2 & R2). congruence. Qed.

(** What a call answers when it returns: its accumulator, or a fresh
    declared name followed by the expansion of that name. *)
Lemma getDependencies_shape fuel type dependencies contains l :
  getDependencies (S fuel) types type dependencies contains revision = Return l ->
  l = dependencies \/
  exists rest, l = (normalizeType type contains revision :: rest) /\
               (normalizeType type contains revision ∉ dependencies) /\
               expands fuel (normalizeType type contains revision) rest.
Proof.
  rewrite getDependencies_unfold. unfold resolved.
  destruct (includes _ dependencies) eqn:I; [intros [= <-]; auto|].
  destruct (negb _); cbn [orb]; [intros [= <-]; auto|].
  destruct (types !! _) as [fields|] eqn:T; [|discriminate].
  intros H. apply bind_Return_inv in H. destruct H as (rest & R & [= <-]).
  right. exists rest. split; [reflexivity|]. split.
  - apply includes_false, I.
  - exists fields. auto.
Qed.

Lemma elem_of_addNew x previous found :
  x ∈ addNew previous found <-> x ∈ previous \/ x ∈ found.
Proof.
  unfold addNew. rewrite elem_of_app, !list_elem_of_In, filter_In, <- !list_elem_of_In.
  rewrite negb_true_iff, includes_false. split.
  - intros [H|[H _]]; auto.
  - intros [H|H]; [auto|]. destruct (decide (x ∈ previous)); auto.
Qed.

Lemma NoDup_filter_bool {A : Type} (f : A -> bool) (l : list A) :
  NoDup l -> NoDup (List.filter f l).
Proof.
  induction 1 as [|x l Hx Hl IH]; simpl; [constructor|].
  destruct (f x); [|exact IH].
  constructor; [|exact IH].
  rewrite list_elem_of_In, filter_In, <- list_elem_of_In. tauto.
Qed.

Lemma NoDup_addNew previous found :
  NoDup previous -> NoDup found -> NoDup (addNew previous found).
Proof.
  intros Hp Hf. unfold addNew. apply NoDup_app. split; [exact Hp|]. split.
  - intros x Hx. rewrite list_elem_of_In, filter_In, negb_true_iff, includes_false.
    tauto.
  - apply NoDup_filter_bool, Hf.
Qed.

(** Every name a type's fields resolve to was itself expanded, with less
    fuel. *)
Lemma fieldDependencies_expanded fuel : forall fields rest,
  fieldDependencies fuel types fields revision = Return rest ->
  forall y, y ∈ rest -> exists k rest', (k < fuel)%nat /\ expands k y rest'.
Proof.
  induction fuel as [|fuel IH]; intros fields rest.
  - destruct fields as [|t fields]; simpl.
    + intros [= <-] y Hy. inversion Hy.
    + discriminate.
  - unfold fieldDependencies.
    apply (reduceO_invariant
             (fun r => forall y, y ∈ r -> exists k rest', (k < S fuel)%nat /\ expands k y rest')).
    + intros b t y Hb F. cbv beta in F.
      apply bind_Return_inv in F. destruct F as (found & F & [= <-]).
      intros z Hz. apply elem_of_addNew in Hz. destruct Hz as [Hz|Hz]; [auto|].
      apply getDependencies_shape in F. destruct F as [->|(rest' & -> & _ & Hexp)]; [auto|].
      apply elem_of_cons in Hz. destruct Hz as [->|Hz].
      * exists fuel, rest'. split; [lia | exact Hexp].
      * destruct Hexp as (fs & _ & Hr).
        destruct (IH _ _ Hr z Hz) as (k & r' & Hk & He).
        exists k, r'. split; [lia | exact He].
    + intros y Hy. inversion Hy.
Qed.

(** A type is never among the names its own fields resolve to: the call
    that would find it there is the call being answered. *)
Lemma expands_irreflexive fuel : forall name rest,
  expands fuel name rest -> name ∉ rest.
Proof.
  induction fuel as [fuel IH] using lt_wf_ind. intros name rest Hexp Hin.
  destruct Hexp as (fields & Hf & Hr).
  destruct (fieldDependencies_expanded _ _ _ Hr _ Hin) as (k & rest' & Hk & Hexp').
  assert (rest' = rest) as ->.
  { apply (expands_functional fuel name).
    - apply (expands_mono k fuel); [lia | exact Hexp'].
    - exists fields. auto. }
  exact (IH k Hk _ _ Hexp' Hin).
Qed.

Lemma fieldDependencies_NoDup fuel : forall fields rest,
  fieldDependencies fuel types fields revision = Return rest -> NoDup rest.
Proof.
  induction fuel as [|fuel IH]; intros fields rest.
  - destruct fields; simpl; [intros [= <-]; constructor | discriminate].
  - unfold fieldDependencies. apply (reduceO_invariant NoDup); [|constructor].
    intros b t y Hb F. cbv beta in F.
    apply bind_Return_inv in F. destruct F as (found & F & [= <-]).
    apply NoDup_addNew; [exact Hb|].
    apply getDependencies_shape in F. destruct F as [->|(rest' & -> & _ & Hexp)]; [exact Hb|].
    constructor.
    + eapply expands_irreflexive, Hexp.
    + destruct Hexp as (fs & _ & Hr). eapply IH, Hr.
Qed.

(** On a ranked universe the resolver returns once the fuel exceeds the
    rank of the resolved name, unless that name is an undeclared one that
    every object inherits. *)
Lemma getDependencies_ranked rank :
  ranked types revision rank ->
  forall fuel type dependencies contains,
    (hasType types (normalizeType type contains revision) = true ->
     is_Some (types !! normalizeType type contains revision) /\
     (rank (normalizeType type contains revision) < fuel)%nat) ->
    exists l, getDependencies (S fuel) types type dependencies contains revision = Return l.
Proof.
  intros Hrank. induction fuel as [|fuel IH]; intros type dependencies contains Hlt;
    rewrite getDependencies_unfold; unfold resolved;
    destruct (includes _ dependencies); cbn [orb]; eauto;
    destruct (hasType types _) eqn:Hhas; cbn [negb]; eauto;
    destruct (Hlt eq_refl) as [[fields T] Hfuel]; rewrite T; [lia|].
  assert (exists rest, fieldDependencies (S fuel) types fields revision = Return rest)
    as [rest ->]; [|rewrite bind_Return; eauto].
  unfold fieldDependencies. apply reduceO_returns. intros b t Ht.
  assert (exists found, getDependencies (S fuel) types (f_type t) b
                          (default "" (f_contains t)) revision = Return found)
    as [found ->]; [|rewrite bind_Return; eauto].
  apply IH. intros Hm.
  pose proof (Hrank _ _ T) as Hall. rewrite Forall_forall in Hall.
  destruct (Hall t Ht Hm) as [Hdeclared Hbelow].
  split; [exact Hdeclared | lia].
Qed.

(** An undeclared name that every object inherits passes the guard, and
    the member of [Object.prototype] found under it has no [reduce]. *)
Lemma getDependencies_inherited fuel type dependencies contains :
  types !! normalizeType type contains revision = None ->
  Js.inheritedName (normalizeType type contains revision) = true ->
  (normalizeType type contains revision ∉ dependencies) ->
  getDependencies (S fuel) types type dependencies contains revision = Throw TypeError.
Proof.
  intros Hnone Hinherited Hfresh.
  rewrite getDependencies_unfold. unfold resolved.
  apply includes_false in Hfresh. rewrite Hfresh, (hasType_inherited _ _ Hinherited), Hnone.
  reflexivity.
Qed.

(** A name for which [types[name]] is false ends the call at the guard. *)
Lemma getDependencies_undeclared fuel type dependencies contains :
  hasType types (normalizeType type contains revision) = false ->
  getDependencies (S fuel) types type dependencies contains revision = Return dependencies.
Proof.
  intros Hhas. rewrite getDependencies_unfold. unfold resolved.
  rewrite Hhas, orb_true_r. reflexivity.
Qed.

End Dependencies.

(** A type that refers to itself is outside the contract: the resolver
    never answers for it, whatever the fuel. *)
Lemma getDependencies_self_reference fuel :
  getDependencies fuel {[ "Node" := [field "next" "Node"] ]} "Node" [] "" LEGACY = OutOfFuel.
Proof.
  induction fuel as [|fuel IH]; [reflexivity|].
  rewrite getDependencies_unfold. unfold resolved.
  change (normalizeType "Node" "" LEGACY) with "Node".
  rewrite (hasType_declared _ "Node"), lookup_singleton_eq
    by (rewrite lookup_singleton_eq; eauto).
  cbn [JsString.includes existsb orb negb].
  unfold fieldDependencies. cbn [reduceO f_type f_contains field default].
  change (default "" None) with "". rewrite IH. reflexivity.
Qed.

(** A ranking of a concrete universe is checked by computation. *)
Ltac ranked_by_computation :=
  unfold ranked; cbv zeta;
  match goal with |- ?P => apply (@bool_decide_unpack P _) end;
  vm_compute; exact I.

(** C3, as stated, fails: the head of the result is not always the queried
    type.  A name that is not declared (a primitive such as [felt]) resolves
    to the empty list, and an array type resolves to its element type. *)
Lemma getDependencies_head_counterexample :
  ~ (forall (fuel : nat) (types : Types) (type : string) (revision : Revision)
            (l : list string),
       getDependencies fuel types type [] "" revision = Return l ->
       NoDup l /\ head l = Some type).
Proof.
  intros H.
  destruct (H 2%nat Demo.mailTypes "felt" LEGACY []
              ltac:(vm_compute; reflexivity)) as [_ Hhead].
  discriminate Hhead.
Qed.

(** C3 (amended).  Whatever [getDependencies] returns from an empty
    accumulator has no duplicate name; it has the queried name, once
    normalized (array marker stripped, and under the active revision
    [enum] replaced by [contains] and a parenthesized tuple unwrapped), as
    its first element when the universe declares that name, and is empty
    otherwise.  For a normalized name the universe does not declare the
    call returns the empty list, unless the name is one every object
    inherits from [Object.prototype] ([toString], [constructor], ...):
    then [types[type]] is a function, the guard lets it through, and the
    call throws a [TypeError].  For a declared name, on a universe that
    has a ranking (no cycle, and no field resolving to an undeclared
    inherited name), the call does return, with fuel beyond the rank of
    the name. *)
Theorem getDependencies_distinct_head_first
    (types : Types) (type contains : string) (revision : Revision) :
  (forall fuel l,
     getDependencies fuel types type [] contains revision = Return l ->
     NoDup l /\
     match types !! normalizeType type contains revision with
     | Some _ => head l = Some (normalizeType type contains revision)
     | None => l = [] /\ Js.inheritedName (normalizeType type contains revision) = false
     end) /\
  (forall fuel,
     types !! normalizeType type contains revision = None ->
     getDependencies (S fuel) types type [] contains revision
     = if Js.inheritedName (normalizeType type contains revision)
       then Throw TypeError else Return []) /\
  (forall rank, ranked types revision rank ->
     is_Some (types !! normalizeType type contains revision) ->
     forall fuel, (2 + rank (normalizeType type contains revision) <= fuel)%nat ->
       exists l, getDependencies fuel types type [] contains revision = Return l).
Proof.
  split; [|split].
  - intros [|fuel] l; [discriminate|].
    rewrite getDependencies_unfold. unfold resolved. cbn [JsString.includes existsb orb].
    destruct (types !! _) as [fields|] eqn:T.
    + rewrite (hasType_declared types _) by (rewrite T; eauto). cbn [negb].
      intros H. apply bind_Return_inv in H. destruct H as (rest & R & [= <-]).
      split; [|reflexivity].
      constructor.
      * apply (expands_irreflexive types revision fuel). exists fields. auto.
      * eapply fieldDependencies_NoDup, R.
    + destruct (hasType types _) eqn:Hhas; cbn [negb]; [discriminate|].
      apply hasType_false in Hhas. destruct Hhas as [_ Hown].
      intros [= <-]. split; [constructor | split; [reflexivity | exact Hown]].
  - intros fuel Hnone.
    destruct (Js.inheritedName _) eqn:Hinherited.
    + apply getDependencies_inherited; [exact Hnone | exact Hinherited | apply not_elem_of_nil].
    + apply getDependencies_undeclared, hasType_false. auto.
  - intros rank Hrank Hdeclared fuel Hfuel.
    destruct (getDependencies_ranked types revision rank Hrank
                (S (rank (normalizeType type contains revision))) type [] contains)
      as [l Hl]; [intros _; split; [exact Hdeclared | lia]|].
    exists l. eapply getDependencies_mono; [|exact Hl]. lia.
Qed.

Lemma getDependencies_distinct_head_first_witness :
  (NoDup ["Mail"; "Person"] /\ head ["Mail"; "Person"] = Some "Mail") /\
  getDependencies 1 Demo.mailTypes "felt*" [] "" LEGACY = Return [] /\
  getDependencies 1 Demo.mailTypes "toString" [] "" LEGACY = Throw TypeError /\
  exists l, getDependencies 3 Demo.mailTypes "Mail" [] "" LEGACY = Return l.
Proof.
  destruct (getDependencies_distinct_head_first Demo.mailTypes "Mail" "" LEGACY)
    as (Hres & _ & Hret).
  split; [|split; [|split]].
  - apply (Hres 5%nat ["Mail"; "Person"]). vm_compute. reflexivity.
  - apply (proj1 (proj2 (getDependencies_distinct_head_first
                           Demo.mailTypes "felt*" "" LEGACY)) 0%nat).
    vm_compute. reflexivity.
  - apply (proj1 (proj2 (getDependencies_distinct_head_first
                           Demo.mailTypes "toString" "" LEGACY)) 0%nat).
    vm_compute. reflexivity.
  - apply (Hret (fun name => if String.eqb name "Mail" then 1%nat else 0%nat)).
    + ranked_by_computation.
    + vm_compute. eauto.
    + vm_compute. lia.
Defined.

(** C10.  The array marker is tested first: a type string ending in [*]
    loses that one character and nothing else happens to it, whatever the
    revision and the [contains] reference; [getDependencies] then looks the
    stripped name up as it stands. *)
Theorem getDependencies_array_marker_precedence
    (fuel : nat) (types : Types) (type : string) (dependencies : list string)
    (contains : string) (revision : Revision) :
  JsString.endsWith type "*"%char = true ->
  type = JsString.dropLast type ++ "*" /\
  normalizeType type contains revision = JsString.dropLast type /\
  getDependencies (S fuel) types type dependencies contains revision
  = resolved fuel types (JsString.dropLast type) dependencies revision.
Proof.
  intros Hstar. split; [apply JsStringFacts.endsWith_inv, Hstar|].
  assert (normalizeType type contains revision = JsString.dropLast type) as Hn.
  { unfold normalizeType. rewrite Hstar. reflexivity. }
  split; [exact Hn|].
  rewrite getDependencies_unfold, Hn. reflexivity.
Qed.

(** The type [enum*] under the active revision resolves the literal name
    [enum], which this universe does not declare, and not the [contains]
    reference [MyEnum], which it does. *)
Lemma getDependencies_array_marker_precedence_witness :
  normalizeType "enum*" "MyEnum" ACTIVE = "enum" /\
  getDependencies 3 Demo.enumTypes "enum*" [] "MyEnum" ACTIVE = Return [] /\
  getDependencies 3 Demo.enumTypes "enum" [] "MyEnum" ACTIVE = Return ["MyEnum"].
Proof.
  destruct (getDependencies_array_marker_precedence 2 Demo.enumTypes "enum*" []
              "MyEnum" ACTIVE eq_refl) as (_ & Hn & Hg).
  split; [exact Hn|]. split.
  - rewrite Hg. vm_compute. reflexivity.
  - vm_compute. reflexivity.
Defined.

(** ** Outcomes that never throw a given error *)

Lemma never_Return {A : Type} (e : error) (a : A) : never e (Return a).
Proof. discriminate. Qed.

Lemma never_OutOfFuel {A : Type} (e : error) : never e (@OutOfFuel A).
Proof. discriminate. Qed.

Lemma never_Throw {A : Type} (e e' : error) : e' <> e -> never e (@Throw A e').
Proof. intros H [= E]. exact (H E). Qed.

Lemma never_bind {A B : Type} (e : error) (m : outcome A) (f : A -> outcome B) :
  never e m -> (forall a, never e (f a)) -> never e (m ≫= f).
Proof.
  intros Hm Hf. destruct m as [a|e'|]; unfold mbind, outcome_bind.
  - apply Hf.
  - intros [= ->]. apply Hm. reflexivity.
  - discriminate.
Qed.

Lemma never_fmap {A B : Type} (e : error) (m : outcome A) (f : A -> B) :
  never e m -> never e (f <$> m).
Proof.
  intros Hm. destruct m as [a|e'|]; unfold fmap, outcome_fmap; [discriminate | | discriminate].
  intros [= ->]. apply Hm. reflexivity.
Qed.

Lemma never_call {A : Type} (e : error) (who : string) (r : option A) :
  CollaboratorError who <> e -> never e (call who r).
Proof. destruct r; simpl; [discriminate|]. apply never_Throw. Qed.

Lemma never_mapIndexedM {A B : Type} (e : error) (f : nat -> A -> outcome B) (l : list A) :
  (forall i x, never e (f i x)) -> forall i, never e (mapIndexedM f i l).
Proof.
  intros Hf. induction l as [|x l IH]; intros i; simpl; [discriminate|].
  apply never_bind; [apply Hf|]. intros y.
  apply never_bind; [apply IH|]. discriminate.
Qed.

Lemma never_mapM {A B : Type} (e : error) (f : A -> outcome B) (l : list A) :
  (forall x, never e (f x)) -> never e (mapM f l).
Proof. intros Hf. apply never_mapIndexedM. auto. Qed.

Lemma never_reduceO {A B : Type} (e : error) (f : B -> A -> outcome B) (l : list A) :
  (forall b x, never e (f b x)) -> forall init, never e (reduceO f l init).
Proof.
  intros Hf. induction l as [|x l IH]; intros init; simpl; [discriminate|].
  apply never_bind; auto.
Qed.

(** One step of a proof that an outcome never throws the error at hand:
    follow the shape of the computation. *)
Ltac never_step :=
  lazymatch goal with
  | |- never _ (Return _) => apply never_Return
  | |- never _ (mret _) => apply never_Return
  | |- never _ OutOfFuel => apply never_OutOfFuel
  | |- never _ (Throw _) => apply never_Throw; discriminate
  | |- never _ (mbind _ _) => apply never_bind; [|intros ?]
  | |- never _ (fmap _ _) => apply never_fmap
  | |- never _ (call _ _) => apply never_call; discriminate
  | |- never _ (mapM _ _) => apply never_mapM; intros ?
  | |- never _ (mapIndexedM _ _ _) => apply never_mapIndexedM; intros ? ?
  | |- never _ (reduceO _ _ _) => apply never_reduceO; intros ? ?
  | |- never _ (if ?b then _ else _) => destruct b
  | |- never _ (match ?x with _ => _ end) => destruct x
  end.

Section NeverTopLevel.

Context (ext : Collaborators) (e : error) (He : topLevelError e).

Lemma getHex_never v : never e (getHex ext v).
Proof. destruct He as [->|[t ->]]; unfold getHex; repeat never_step. Qed.

Lemma scalar_never type v : never e (scalar ext type v).
Proof. unfold scalar. never_step; [apply getHex_never | never_step]. Qed.

Lemma assertRange_never v type range : never e (assertRange v type range).
Proof.
  destruct He as [->|[t ->]]; unfold assertRange, assert, Js.BigInt; repeat never_step.
Qed.

Lemma getProperty_never v k : never e (Js.getProperty v k).
Proof.
  destruct He as [->|[t ->]]; unfold Js.getProperty, Js.builtin; repeat never_step.
Qed.

Lemma getDependencies_never fuel : forall types type dependencies contains revision,
  never e (getDependencies fuel types type dependencies contains revision).
Proof.
  induction fuel as [|fuel IH]; intros types type dependencies contains revision;
    [discriminate|].
  cbn [getDependencies].
  destruct He as [->|[t ->]]; repeat first [ apply IH | never_step ].
Qed.

Lemma getMerkleTreeType_never types ctx : never e (getMerkleTreeType types ctx).
Proof. destruct He as [->|[t ->]]; unfold getMerkleTreeType; repeat never_step. Qed.

Lemma getTypeHash_never fuel types type revision :
  never e (getTypeHash ext fuel types type revision).
Proof.
  pose proof getDependencies_never as Hdeps.
  destruct He as [->|[t ->]];
    unfold getTypeHash, encodeType, encodeDependency, encodeField;
    repeat first [ apply Hdeps | never_step ].
Qed.

Lemma getStructHashWith_never (encode : Encode) fuel types type data revision :
  (forall types type data ctx, never e (encode types type data ctx revision)) ->
  never e (getStructHashWith ext encode fuel types type data revision).
Proof.
  intros Hrec. unfold getStructHashWith, encodeDataWith, encodeFieldWith, targetTypeOf.
  pose proof getTypeHash_never as Hhash. pose proof getProperty_never as Hget.
  destruct He as [->|[t ->]];
    repeat first [ apply Hhash | apply Hget | apply Hrec | never_step ].
Qed.

End NeverTopLevel.

(** The body of [encodeValue] never throws the error at hand, given that
    its recursive calls do not. *)
Ltac encodeValue_never ext IH He :=
  pose proof (getStructHashWith_never ext _ He) as Hstruct;
  pose proof (scalar_never ext _ He) as Hscalar;
  pose proof (assertRange_never _ He) as Hrange;
  pose proof (getHex_never ext _ He) as Hhex;
  pose proof (getMerkleTreeType_never _ He) as Hmerkle;
  pose proof (getProperty_never ext _ He) as Hget;
  cbn [encodeValue];
  repeat first
    [ apply IH | apply Hstruct; intros; apply IH | apply Hscalar | apply Hrange | apply Hhex
    | apply Hmerkle | apply Hget
    | progress unfold prepareSelector, Js.entries, Js.asArray, Js.BigInt, assert
    | never_step ].

Lemma encodeValue_never_schema ext fuel : forall types type data ctx revision,
  never SchemaMismatch (encodeValue ext fuel types type data ctx revision).
Proof.
  assert (He : topLevelError SchemaMismatch) by (left; reflexivity).
  induction fuel as [|fuel IH]; intros types type data ctx revision; [discriminate|].
  encodeValue_never ext IH He.
Qed.

Lemma getStructHash_never_schema ext fuel types type data revision :
  never SchemaMismatch (getStructHash ext fuel types type data revision).
Proof.
  apply getStructHashWith_never; [left; reflexivity|].
  intros. apply encodeValue_never_schema.
Qed.

(** Under the legacy revision no type is unsupported. *)
Lemma encodeValue_legacy_never_unsupported ext t fuel : forall types type data ctx,
  never (UnsupportedType t) (encodeValue ext fuel types type data ctx LEGACY).
Proof.
  assert (He : topLevelError (UnsupportedType t)) by (right; eauto).
  induction fuel as [|fuel IH]; intros types type data ctx; [discriminate|].
  encodeValue_never ext IH He.
Qed.

(** ** Revision detection *)

Lemma strictEq_eq v w : Js.strictEq v w = true -> v = w.
Proof.
  destruct v, w; simpl; try discriminate; intros H; try reflexivity; f_equal.
  - apply Bool.eqb_prop, H.
  - apply Z.eqb_eq, H.
  - apply Z.eqb_eq, H.
  - apply String.eqb_eq, H.
Qed.

Example identifyRevision_examples :
  identifyRevision Demo.ext Demo.mailTypes [("name", VStr "Demo")] = Some LEGACY /\
  identifyRevision Demo.ext Demo.mailTypes [("revision", VStr "0")] = Some LEGACY /\
  identifyRevision Demo.ext Demo.mailTypes [("revision", VStr "1")] = None /\
  identifyRevision Demo.ext Demo.enumTypes [("revision", VStr "1")] = Some ACTIVE /\
  identifyRevision Demo.ext Demo.enumTypes [("revision", VNum 1)] = None /\
  identifyRevision Demo.ext Demo.enumTypes [("name", VStr "Demo")] = None.
Proof. vm_compute. repeat split. Qed.

(** [??] takes [null] for a missing value: a domain whose revision is
    [null] resolves as one without a revision does. *)
Lemma identifyRevision_null ext types domain :
  revisionsOk ext ->
  revisionField domain = VNull ->
  identifyRevision ext types domain
  = if hasType types "StarkNetDomain" then Some LEGACY else None.
Proof.
  intros (HA & HL & HAL & HLL) Hnull. unfold identifyRevision.
  rewrite Hnull. cbn [Js.nullish]. rewrite HLL.
  assert (Js.strictEq VNull (revisionValue ext ACTIVE) = false) as ->.
  { destruct (revisionValue ext ACTIVE); try reflexivity. discriminate HA. }
  rewrite andb_false_r, andb_true_r. reflexivity.
Qed.

(** C2.  With the members of the revision enumeration truthy and distinct,
    and a domain whose revision is not [null] (the field is an optional
    string or number): the active revision is identified exactly when the
    types declare [StarknetDomain] and the domain's revision strictly equals
    the active member; the legacy revision exactly when the types declare
    [StarkNetDomain] and the domain's revision is absent or strictly equals
    the legacy member; no revision in every other case.  The active rule is
    tried first, and under these conditions the two rules exclude each
    other. *)
Theorem identifyRevision_spec
    (ext : Collaborators) (types : Types) (domain : list (string * value)) :
  revisionsOk ext ->
  revisionField domain <> VNull ->
  let active :=
    is_Some (types !! "StarknetDomain") /\
    Js.strictEq (revisionField domain) (revisionValue ext ACTIVE) = true in
  let legacy :=
    is_Some (types !! "StarkNetDomain") /\
    (revisionField domain = VUndefined \/
     Js.strictEq (revisionField domain) (revisionValue ext LEGACY) = true) in
  (identifyRevision ext types domain = Some ACTIVE <-> active) /\
  (identifyRevision ext types domain = Some LEGACY <-> legacy) /\
  (identifyRevision ext types domain = None <-> ~ active /\ ~ legacy) /\
  ~ (active /\ legacy).
Proof.
  intros (HA & HL & HAL & HLL) Hnull active legacy.
  assert (Hexcl : ~ (active /\ legacy)).
  { intros [[_ Ha] [_ [Hu|Hl]]].
    - rewrite Hu in Ha. destruct (revisionValue ext ACTIVE); discriminate.
    - apply strictEq_eq in Ha, Hl. rewrite <- Ha, <- Hl in HAL.
      rewrite Hl, HLL in HAL. discriminate. }
  assert (Hleg : Js.strictEq
                   (if Js.nullish (revisionField domain) then revisionValue ext LEGACY
                    else revisionField domain) (revisionValue ext LEGACY) = true
                 <-> revisionField domain = VUndefined \/
                     Js.strictEq (revisionField domain) (revisionValue ext LEGACY) = true).
  { destruct (revisionField domain) eqn:E; cbn [Js.nullish];
      try (split; [auto | intros [H|H]; [discriminate H | exact H]]).
    - rewrite HLL. split; auto.
    - congruence. }
  assert (Hact : identifyRevision ext types domain = Some ACTIVE <-> active).
  { unfold identifyRevision, active.
    rewrite <- (hasType_own types "StarknetDomain" eq_refl). simpl Configuration.domain.
    destruct (hasType types "StarknetDomain"), (Js.strictEq _ (revisionValue ext ACTIVE));
      cbn [andb]; try destruct (_ && _); intuition congruence. }
  assert (Hlegacy : identifyRevision ext types domain = Some LEGACY <-> legacy).
  { split.
    - intros H. unfold legacy.
      rewrite <- (hasType_own types "StarkNetDomain" eq_refl), <- Hleg.
      unfold identifyRevision in H. simpl Configuration.domain in H.
      destruct (hasType types "StarknetDomain" && _); [discriminate|].
      destruct (hasType types "StarkNetDomain"); [|discriminate].
      cbn [andb] in H.
      match type of H with (if ?y then _ else _) = _ => destruct y end;
        [split; reflexivity | discriminate].
    - intros Hl. destruct (identifyRevision ext types domain) as [[|]|] eqn:E.
      + exfalso. apply Hexcl. split; [apply Hact; reflexivity | exact Hl].
      + reflexivity.
      + exfalso. unfold legacy in Hl.
        rewrite <- (hasType_own types "StarkNetDomain" eq_refl), <- Hleg in Hl.
        destruct Hl as [H1 H2]. unfold identifyRevision in E.
        simpl Configuration.domain in E. rewrite H1, H2 in E.
        destruct (hasType types "StarknetDomain" && _); discriminate. }
  split; [exact Hact|]. split; [exact Hlegacy|]. split; [|exact Hexcl].
  rewrite <- Hact, <- Hlegacy.
  destruct (identifyRevision ext types domain) as [[|]|]; intuition congruence.
Qed.

Lemma revisionsOk_demo : revisionsOk Demo.ext.
Proof. vm_compute. repeat split. Qed.

Lemma identifyRevision_spec_witness :
  identifyRevision Demo.ext Demo.enumTypes [("revision", VStr "1")] = Some ACTIVE /\
  identifyRevision Demo.ext Demo.mailTypes [("name", VStr "Demo")] = Some LEGACY.
Proof.
  split.
  - apply (identifyRevision_spec Demo.ext Demo.enumTypes [("revision", VStr "1")]
             revisionsOk_demo); [discriminate|].
    split; [apply (hasType_own _ "StarknetDomain" eq_refl)|]; vm_compute; reflexivity.
  - apply (identifyRevision_spec Demo.ext Demo.mailTypes [("name", VStr "Demo")]
             revisionsOk_demo); [discriminate|].
    split; [apply (hasType_own _ "StarkNetDomain" eq_refl); vm_compute; reflexivity|].
    left. reflexivity.
Defined.

(** ** The message hash *)

Section MessageHash.

Context (ext : Collaborators).

Lemma validateTypedData_true typedData :
  revisionsOk ext ->
  validateTypedData ext typedData = true <->
  Js.truthy (td_message typedData) = true /\
  td_primaryType typedData <> "" /\
  exists types, td_types typedData = Some types /\
                is_Some (identifyRevision ext types (td_domain typedData)).
Proof.
  intros (HA & HL & _). unfold validateTypedData.
  rewrite !andb_true_iff, negb_true_iff, String.eqb_neq.
  split.
  - intros [[Hm Hp] Ht]. split; [exact Hm|]. split; [exact Hp|].
    destruct (td_types typedData) as [types|]; [|discriminate].
    exists types. split; [reflexivity|].
    destruct (identifyRevision ext types _); [eauto | discriminate].
  - intros (Hm & Hp & types & -> & [revision ->]). split; [auto|].
    destruct revision; assumption.
Qed.

Lemma getMessageHash_valid fuel typedData account :
  validateTypedData ext typedData = true ->
  exists types revision,
    td_types typedData = Some types /\
    identifyRevision ext types (td_domain typedData) = Some revision /\
    getMessageHash ext fuel typedData account
    = (prefix ← call "encodeShortString" (encodeShortString ext "StarkNet Message");
       domainHash ← getStructHash ext fuel types
                      (Configuration.domain (revisionConfiguration ext revision))
                      (VObj (td_domain typedData)) revision;
       messageHash ← getStructHash ext fuel types (td_primaryType typedData)
                       (td_message typedData) revision;
       call "hashMethod"
         (Configuration.hashMethod (revisionConfiguration ext revision)
            [VStr prefix; VStr domainHash; account; VStr messageHash])).
Proof.
  intros Hvalid. unfold getMessageHash. rewrite Hvalid. cbn [negb].
  unfold validateTypedData in Hvalid.
  destruct (td_types typedData) as [types|]; [|rewrite andb_false_r in Hvalid; discriminate].
  destruct (identifyRevision ext types _) as [revision|] eqn:Hr;
    [|rewrite andb_false_r in Hvalid; discriminate].
  exists types, revision. split; [reflexivity|]. split; [exact Hr|].
  rewrite ?Hr. reflexivity.
Qed.

End MessageHash.

(** C1.  For a document that passes validation, [getMessageHash] computes
    the short string of ["StarkNet Message"], the struct hash of the domain
    under the revision's domain type name, and the struct hash of the
    message under the primary type, in that order, and answers the
    revision's element hash of the four-element sequence made of these and
    the account; so when the three are computed, the result is that hash. *)
Theorem getMessageHash_digest
    (ext : Collaborators) (fuel : nat) (typedData : TypedData) (account : value) :
  validateTypedData ext typedData = true ->
  exists types revision,
    td_types typedData = Some types /\
    identifyRevision ext types (td_domain typedData) = Some revision /\
    let config := revisionConfiguration ext revision in
    forall prefix domainHash messageHash,
      encodeShortString ext "StarkNet Message" = Some prefix ->
      getStructHash ext fuel types (Configuration.domain config)
        (VObj (td_domain typedData)) revision = Return domainHash ->
      getStructHash ext fuel types (td_primaryType typedData)
        (td_message typedData) revision = Return messageHash ->
      getMessageHash ext fuel typedData account
      = call "hashMethod"
          (Configuration.hashMethod config
             [VStr prefix; VStr domainHash; account; VStr messageHash]).
Proof.
  intros Hvalid.
  destruct (getMessageHash_valid ext fuel typedData account Hvalid)
    as (types & revision & Ht & Hr & Heq).
  exists types, revision. split; [exact Ht|]. split; [exact Hr|].
  intros config prefix domainHash messageHash Hp Hd Hm.
  rewrite Heq, Hp. cbn [call mbind outcome_bind].
  fold config. rewrite Hd. cbn [mbind outcome_bind]. rewrite Hm. reflexivity.
Qed.

Lemma getMessageHash_digest_witness :
  getMessageHash Demo.ext 4 mailDocument (VStr "0xacc")
  = Return
      (("pedersen[0x537461726b4e6574204d657373616765,"
        ++ "pedersen[selector[StarkNetDomain(name:felt,version:felt)],0x44656d6f,0x1]")
       ++ ",0xacc,"
       ++ ("pedersen[selector[Mail(from:Person,to:Person*,contents:felt)"
           ++ "Person(name:felt,wallet:felt)],"
           ++ "pedersen[selector[Person(name:felt,wallet:felt)],0x436f77,0xc0],"
           ++ "pedersen[pedersen[selector[Person(name:felt,wallet:felt)],0x426f62,0xb0]],"
           ++ "0x48656c6c6f]")
       ++ "]").
Proof.
  destruct (getMessageHash_digest Demo.ext 4 mailDocument (VStr "0xacc") eq_refl)
    as (types & revision & Ht & Hr & Heq).
  injection Ht as <-.
  assert (revision = LEGACY) as -> by (vm_compute in Hr; congruence).
  rewrite (Heq "0x537461726b4e6574204d657373616765"
             "pedersen[selector[StarkNetDomain(name:felt,version:felt)],0x44656d6f,0x1]"
             ("pedersen[selector[Mail(from:Person,to:Person*,contents:felt)"
              ++ "Person(name:felt,wallet:felt)],"
              ++ "pedersen[selector[Person(name:felt,wallet:felt)],0x436f77,0xc0],"
              ++ "pedersen[pedersen[selector[Person(name:felt,wallet:felt)],0x426f62,0xb0]],"
              ++ "0x48656c6c6f]"));
    vm_compute; reflexivity.
Defined.

(** C5, as stated, fails: an empty message is not refused.  The document
    [pingDocument] has the empty object for message, so it fails the
    validation as the specification words it, and [getMessageHash] answers
    a digest for it. *)
Lemma getMessageHash_empty_message_counterexample :
  ~ (forall (ext : Collaborators) (fuel : nat) (typedData : TypedData) (account : value),
       getMessageHash ext fuel typedData account = Throw SchemaMismatch <->
       validAsSpecified ext typedData = false).
Proof.
  intros H.
  destruct (H Demo.ext 3%nat pingDocument (VStr "0x1")) as [_ Hfail].
  specialize (Hfail eq_refl). vm_compute in Hfail. discriminate Hfail.
Qed.

(** C5 (amended).  [getMessageHash] fails with the schema-mismatch error
    exactly when [validateTypedData] answers false, whatever the fuel.  The
    validation requires a truthy message (an empty object is truthy), a
    non-empty primary type name, a types map, and a revision that resolves.
    In particular a document whose types declare neither [StarknetDomain]
    nor [StarkNetDomain] fails with the schema-mismatch error. *)
Theorem getMessageHash_schema_mismatch
    (ext : Collaborators) (fuel : nat) (typedData : TypedData) (account : value) :
  revisionsOk ext ->
  (getMessageHash ext fuel typedData account = Throw SchemaMismatch <->
   validateTypedData ext typedData = false) /\
  (validateTypedData ext typedData = true <->
   Js.truthy (td_message typedData) = true /\
   td_primaryType typedData <> "" /\
   exists types, td_types typedData = Some types /\
                 is_Some (identifyRevision ext types (td_domain typedData))) /\
  (forall types,
     td_types typedData = Some types ->
     types !! "StarknetDomain" = None -> types !! "StarkNetDomain" = None ->
     getMessageHash ext fuel typedData account = Throw SchemaMismatch).
Proof.
  intros Hok.
  assert (Hinvalid : validateTypedData ext typedData = false ->
                     getMessageHash ext fuel typedData account = Throw SchemaMismatch).
  { intros H. unfold getMessageHash. rewrite H. reflexivity. }
  split; [|split].
  - split; [|exact Hinvalid].
    intros Hthrow. destruct (validateTypedData ext typedData) eqn:Hvalid; [|reflexivity].
    exfalso.
    destruct (getMessageHash_valid ext fuel typedData account Hvalid)
      as (types & revision & _ & _ & Heq).
    revert Hthrow. rewrite Heq.
    change (never SchemaMismatch
              (prefix ← call "encodeShortString" (encodeShortString ext "StarkNet Message");
               domainHash ← getStructHash ext fuel types
                              (Configuration.domain (revisionConfiguration ext revision))
                              (VObj (td_domain typedData)) revision;
               messageHash ← getStructHash ext fuel types (td_primaryType typedData)
                               (td_message typedData) revision;
               call "hashMethod"
                 (Configuration.hashMethod (revisionConfiguration ext revision)
                    [VStr prefix; VStr domainHash; account; VStr messageHash]))).
    repeat first [apply getStructHash_never_schema | never_step].
  - apply validateTypedData_true, Hok.
  - intros types Ht Ha Hl. apply Hinvalid.
    unfold validateTypedData, identifyRevision. rewrite Ht.
    apply (hasType_own_false _ "StarknetDomain" eq_refl) in Ha.
    apply (hasType_own_false _ "StarkNetDomain" eq_refl) in Hl.
    simpl Configuration.domain. rewrite Ha, Hl.
    cbn [andb]. apply andb_false_r.
Qed.

Lemma getMessageHash_schema_mismatch_witness :
  getMessageHash Demo.ext 4 noDomainDocument (VStr "0xacc") = Throw SchemaMismatch.
Proof.
  destruct (getMessageHash_schema_mismatch Demo.ext 4 noDomainDocument (VStr "0xacc")
              revisionsOk_demo) as (_ & _ & H).
  apply (H {[ "Ping" := [field "n" "felt"] ]}); vm_compute; reflexivity.
Defined.

(** ** The value encoder *)

(** Past the struct and array tests of [encodeValue], for a tag written
    out in the goal. *)
Ltac enter_switch Hdeclared :=
  cbn [encodeValue]; rewrite Hdeclared;
  match goal with
  | |- context [hasType (Configuration.presetTypes ?c) ?t] =>
      replace (hasType (Configuration.presetTypes c) t) with false
        by (vm_compute; reflexivity)
  end;
  cbn [JsString.endsWith JsString.lastChar Ascii.eqb String.eqb Bool.eqb orb].

Lemma assertRange_BigInt v type range :
  assertRange (VBigInt v) type range
  = if (fst range <=? v) && (v <=? snd range) then Return tt
    else Throw (OutOfBounds v type (fst range) (snd range)).
Proof. reflexivity. Qed.

(** C7.  Under the active revision an [i128] value goes through [BigInt]
    (whose failure is the failure of the encoding); a parsed value outside
    [-2^127, 2^127 - 1] is refused as out of bounds; inside, a negative [v]
    is encoded as the hex of [v + PRIME] and any other as the hex of [v].
    So [-1] yields the hex of [PRIME - 1], which is also what a [felt] of
    value [PRIME - 1] yields. *)
Theorem encodeValue_i128_active
    (ext : Collaborators) (fuel : nat) (types : Types) (data : value) (ctx : Context) :
  hasType types "i128" = false ->
  let encoded := encodeValue ext (S fuel) types "i128" data ctx ACTIVE in
  (forall e, Js.BigInt data = Throw e -> encoded = Throw e) /\
  (forall v, Js.BigInt data = Return v ->
     ((v < - 2 ^ 127) \/ (2 ^ 127 - 1 < v) ->
      encoded = Throw (OutOfBounds v "i128" (- 2 ^ 127) (2 ^ 127 - 1))) /\
     ((- 2 ^ 127 <= v) /\ (v < 0) ->
      encoded = (h ← getHex ext (VBigInt (v + PRIME ext)); Return ("i128", VStr h))) /\
     (0 <= v <= 2 ^ 127 - 1 ->
      encoded = (h ← getHex ext (VBigInt v); Return ("i128", VStr h)))) /\
  (Js.BigInt data = Return (-1) ->
   encoded = (h ← getHex ext (VBigInt (PRIME ext - 1)); Return ("i128", VStr h)) /\
   forall ctx' t s t' s',
     hasType types "felt" = false ->
     encoded = Return (t, s) ->
     encodeValue ext (S fuel) types "felt" (VBigInt (PRIME ext - 1)) ctx' ACTIVE
     = Return (t', s') ->
     s = s').
Proof.
  intros Hdeclared encoded.
  assert (Hparsed : forall v, Js.BigInt data = Return v ->
            encoded
            = if (- 2 ^ 127 <=? v) && (v <=? 2 ^ 127 - 1)
              then scalar ext "i128" (VBigInt (if v <? 0 then PRIME ext + v else v))
              else Throw (OutOfBounds v "i128" (- 2 ^ 127) (2 ^ 127 - 1))).
  { intros v Hv. unfold encoded. enter_switch Hdeclared.
    rewrite Hv, bind_Return, assertRange_BigInt.
    change (fst RANGE_I128) with (- 2 ^ 127). change (snd RANGE_I128) with (2 ^ 127 - 1).
    destruct ((- 2 ^ 127 <=? v) && (v <=? 2 ^ 127 - 1)); reflexivity. }
  assert (Hin : forall v, - 2 ^ 127 <= v <= 2 ^ 127 - 1 ->
                  (- 2 ^ 127 <=? v) && (v <=? 2 ^ 127 - 1) = true).
  { intros v [H1 H2]. apply andb_true_iff. split; apply Z.leb_le; assumption. }
  assert (Hminus : Js.BigInt data = Return (-1) ->
                   encoded = scalar ext "i128" (VBigInt (PRIME ext - 1))).
  { intros Hv. rewrite (Hparsed _ Hv), Hin by (split; apply Z.leb_le; reflexivity).
    replace (PRIME ext + -1) with (PRIME ext - 1) by lia. reflexivity. }
  split; [|split].
  - intros e He. unfold encoded. enter_switch Hdeclared. rewrite He. reflexivity.
  - intros v Hv. rewrite (Hparsed v Hv). split; [|split].
    + intros Hout.
      assert ((- 2 ^ 127 <=? v) && (v <=? 2 ^ 127 - 1) = false) as ->; [|reflexivity].
      apply andb_false_iff. rewrite !Z.leb_gt. lia.
    + intros Hneg. rewrite Hin by lia.
      assert ((v <? 0) = true) as -> by (apply Z.ltb_lt; lia).
      rewrite (Z.add_comm v). reflexivity.
    + intros Hpos. rewrite Hin by lia.
      assert ((v <? 0) = false) as -> by (apply Z.ltb_ge; lia).
      reflexivity.
  - intros Hv. split; [apply Hminus, Hv|].
    intros ctx' t s t' s' Hfelt Hi Hf. rewrite (Hminus Hv) in Hi.
    revert Hf. enter_switch Hfelt. unfold scalar in *.
    destruct (getHex ext (VBigInt (PRIME ext - 1))) as [h| |]; try discriminate.
    rewrite !bind_Return in *.
    destruct (assertRange _ _ _); try discriminate.
    rewrite bind_Return. congruence.
Qed.

Lemma encodeValue_i128_active_witness :
  encodeValue Demo.ext 1 ∅ "i128" (VStr "-1") noContext ACTIVE
  = Return ("i128", VStr "0x800000000000011000000000000000000000000000000000000000000000000") /\
  encodeValue Demo.ext 1 ∅ "felt" (VBigInt (PRIME Demo.ext - 1)) noContext ACTIVE
  = Return ("felt", VStr "0x800000000000011000000000000000000000000000000000000000000000000") /\
  encodeValue Demo.ext 1 ∅ "i128" (VStr "-170141183460469231731687303715884105729")
    noContext ACTIVE
  = Throw (OutOfBounds (- 2 ^ 127 - 1) "i128" (- 2 ^ 127) (2 ^ 127 - 1)).
Proof.
  split; [|split].
  - destruct (encodeValue_i128_active Demo.ext 0 ∅ (VStr "-1") noContext
                (hasType_empty "i128" eq_refl)) as (_ & _ & H).
    destruct (H eq_refl) as [-> _]. vm_compute. reflexivity.
  - vm_compute. reflexivity.
  - destruct (encodeValue_i128_active Demo.ext 0 ∅
                (VStr "-170141183460469231731687303715884105729") noContext
                (hasType_empty "i128" eq_refl)) as (_ & H & _).
    destruct (H (- 2 ^ 127 - 1) eq_refl) as (Hout & _).
    rewrite Hout; [reflexivity | left; lia].
Defined.

(** What every name of [Object.prototype] is like: the normalization of
    [getDependencies] leaves it alone, it names no preset and no array. *)
Lemma inheritedName_plain name :
  Js.inheritedName name = true ->
  (forall contains revision, normalizeType name contains revision = name) /\
  presetTypesTable !! name = None /\
  JsString.endsWith name "*"%char = false.
Proof.
  intros H. apply inheritedName_cases in H. unfold Js.objectPrototypeNames in H.
  repeat (apply elem_of_cons in H; destruct H as [->|H]);
    [ split; [intros contains []; reflexivity | split; vm_compute; reflexivity] .. | ].
  inversion H.
Qed.

(** A preset is no name of [Object.prototype]. *)
Lemma presetTypes_own name :
  is_Some (presetTypesTable !! name) -> Js.inheritedName name = false.
Proof.
  intros Hpreset. destruct (Js.inheritedName name) eqn:E; [|reflexivity].
  apply inheritedName_plain in E. destruct E as (_ & E & _).
  rewrite E in Hpreset. destruct Hpreset as [? [=]].
Qed.








(** C9.  A [merkletree] value encoded in the context of a parent type and
    a field key takes its leaf type from the [contains] of the parent's
    field of that key: the encoding fails when that field is not declared
    with type [merkletree], and when its [contains] ends with the array
    marker; otherwise every element of the array is encoded against the
    leaf type (without context), the Merkle tree is built over the digests
    with the revision's pair hash, and the root comes back tagged [felt]. *)
Theorem encodeValue_merkletree
    (ext : Collaborators) (fuel : nat) (types : Types) (data : value)
    (revision : Revision) (parentName keyName : string)
    (parentType : list StarknetType) (position : nat) (merkleType : StarknetType) :
  hasType types "merkletree" = false ->
  parentName <> "" -> keyName <> "" ->
  types !! parentName = Some parentType ->
  findField keyName parentType O = Some (position, merkleType) ->
  let ctx := mkContext (Some parentName) (Some keyName) in
  let encoded := encodeValue ext (S fuel) types "merkletree" data ctx revision in
  (f_type merkleType <> "merkletree" -> encoded = Throw (NotMerkleTree keyName)) /\
  (f_type merkleType = "merkletree" ->
   forall leaf, f_contains merkleType = Some leaf ->
     (JsString.endsWith leaf "*"%char = true ->
      encoded = Throw (MerkleContainsArray keyName)) /\
     (JsString.endsWith leaf "*"%char = false ->
      forall structs, data = VArr structs ->
        encoded
        = (structHashes ← mapM (fun struct =>
                                  snd <$> encodeValue ext fuel types leaf struct
                                            noContext revision) structs;
           root ← call "MerkleTree"
                    (merkleRoot ext structHashes
                       (Configuration.hashMerkleMethod (revisionConfiguration ext revision)));
           Return ("felt", VStr root)))).
Proof.
  intros Hdeclared Hparent Hkey Htypes Hfind ctx encoded.
  assert (Htree : encoded
                  = (merkleTreeType ← getMerkleTreeType types ctx;
                     structs ← Js.asArray data;
                     structHashes ← mapM (fun struct =>
                                            snd <$> encodeValue ext fuel types merkleTreeType
                                                      struct noContext revision) structs;
                     root ← call "MerkleTree"
                              (merkleRoot ext structHashes
                                 (Configuration.hashMerkleMethod
                                    (revisionConfiguration ext revision)));
                     Return ("felt", VStr root))).
  { unfold encoded. destruct revision; enter_switch Hdeclared; reflexivity. }
  assert (Hleaf : getMerkleTreeType types ctx
                  = if negb (isMerkleTreeType merkleType) then Throw (NotMerkleTree keyName)
                    else match f_contains merkleType with
                         | None => Throw TypeError
                         | Some c =>
                             if JsString.endsWith c "*"%char
                             then Throw (MerkleContainsArray keyName)
                             else Return c
                         end).
  { unfold getMerkleTreeType, ctx. cbn [parent key].
    destruct parentName as [|a p]; [congruence|].
    destruct keyName as [|b k]; [congruence|].
    rewrite Htypes, Hfind. reflexivity. }
  rewrite Htree, Hleaf. unfold isMerkleTreeType. split.
  - intros Hnot. apply String.eqb_neq in Hnot. rewrite Hnot. reflexivity.
  - intros His leaf Hcontains. apply String.eqb_eq in His. rewrite His, Hcontains.
    cbn [negb]. split.
    + intros ->. reflexivity.
    + intros -> structs ->. reflexivity.
Qed.

Lemma encodeValue_merkletree_witness :
  encodeValue Demo.ext 4 sessionTypes "merkletree" policies
    (mkContext (Some "Session") (Some "root")) LEGACY
  = Return ("felt",
            VStr ("pedersen["
                  ++ "pedersen[selector[Policy(contractAddress:felt,selector:selector)],"
                  ++ "0x1,selector[transfer]],"
                  ++ "pedersen[selector[Policy(contractAddress:felt,selector:selector)],"
                  ++ "0x2,0xabc]]")) /\
  encodeValue Demo.ext 4 sessionTypes "merkletree" policies
    (mkContext (Some "Session") (Some "plain")) LEGACY
  = Throw (NotMerkleTree "plain") /\
  encodeValue Demo.ext 4 sessionTypes "merkletree" policies
    (mkContext (Some "Session") (Some "nested")) LEGACY
  = Throw (MerkleContainsArray "nested").
Proof.
  assert (Hdeclared : hasType sessionTypes "merkletree" = false)
    by (vm_compute; reflexivity).
  assert (Hsession : sessionTypes !! "Session"
                     = Some [field "key" "felt";
                             mkType "root" "merkletree" (Some "Policy");
                             field "plain" "felt";
                             mkType "nested" "merkletree" (Some "Policy*")])
    by (vm_compute; reflexivity).
  split; [|split].
  - destruct (encodeValue_merkletree Demo.ext 3 sessionTypes policies LEGACY
                "Session" "root" _ 1 (mkType "root" "merkletree" (Some "Policy"))
                Hdeclared ltac:(discriminate) ltac:(discriminate) Hsession eq_refl)
      as [_ H].
    destruct (H eq_refl "Policy" eq_refl) as [_ H'].
    rewrite (H' eq_refl _ eq_refl). vm_compute. reflexivity.
  - destruct (encodeValue_merkletree Demo.ext 3 sessionTypes policies LEGACY
                "Session" "plain" _ 2 (field "plain" "felt")
                Hdeclared ltac:(discriminate) ltac:(discriminate) Hsession eq_refl)
      as [H _].
    apply H. discriminate.
  - destruct (encodeValue_merkletree Demo.ext 3 sessionTypes policies LEGACY
                "Session" "nested" _ 3 (mkType "nested" "merkletree" (Some "Policy*"))
                Hdeclared ltac:(discriminate) ltac:(discriminate) Hsession eq_refl)
      as [_ H].
    destruct (H eq_refl "Policy*" eq_refl) as [H' _].
    apply H'. reflexivity.
Defined.

(** ** The struct encoder *)

Lemma reduceO_app {A B : Type} (f : B -> A -> outcome B) (l1 l2 : list A) (init : B) :
  reduceO f (l1 ++ l2) init = reduceO f l1 init ≫= reduceO f l2.
Proof.
  revert init. induction l1 as [|x l1 IH]; intros init; [reflexivity|].
  simpl. destruct (f init x) as [b| |]; [|reflexivity..].
  rewrite !bind_Return. apply IH.
Qed.

Lemma encodeFieldWith_object
    (ext : Collaborators) (encode : Encode) types type props revision ts vs field :
  encodeFieldWith ext encode types type (VObj props) revision (ts, vs) field
  = let value := default (if Js.inheritedName (f_name field)
                          then VNative (f_name field) else VUndefined)
                         (Js.assoc (f_name field) props) in
    if Js.strictEq value VUndefined
       || (Js.strictEq value VNull && negb (String.eqb (f_type field) "enum"))
    then Throw (MissingData (f_name field))
    else
      '(t, encodedValue) ← encode types (f_type field) value
                             (mkContext (Some type) (Some (f_name field))) revision;
      Return (ts ++ [t], vs ++ [encodedValue])%list.
Proof. reflexivity. Qed.

(** C6, as stated, fails: a [null] on an [enum] field passes the check, but
    the encoding does not succeed for it.  Under the active revision the
    enum decoder reads the entries of the value, and [null] has none to
    read: whatever the fuel, [encodeData] returns nothing. *)
Lemma encodeData_null_enum_counterexample :
  ~ exists fuel result,
      encodeData Demo.ext fuel Demo.enumTypes "Example" (VObj [("someEnum", VNull)]) ACTIVE
      = Return result.
Proof.
  intros (fuel & result & H). revert H.
  unfold encodeData, encodeDataWith.
  replace (targetTypeOf Demo.ext Demo.enumTypes "Example" ACTIVE)
    with (Some [mkType "someEnum" "enum" (Some "MyEnum")]) by (vm_compute; reflexivity).
  destruct (getTypeHash Demo.ext fuel Demo.enumTypes "Example" ACTIVE) as [h| |];
    [|discriminate..].
  rewrite bind_Return. destruct fuel as [|fuel]; [discriminate|].
  cbn [reduceO]. rewrite encodeFieldWith_object.
  cbn [Js.assoc f_name f_type String.eqb Ascii.eqb Bool.eqb].
  change (default _ (Some VNull)) with VNull.
  cbv zeta. cbn [Js.strictEq orb andb negb].
  enter_switch (eq_refl : hasType Demo.enumTypes "enum" = false).
  discriminate.
Qed.

(** C6 (amended).  When a struct is encoded, its fields are taken in
    declared order.  At a field reached after the fields before it were
    encoded: a message object without the field's key fails with the
    missing-data error naming the field, unless the key is a property name
    every object inherits from [Object.prototype] ([toString],
    [constructor], ...): then the read gives the inherited member, nothing
    is reported missing, and that member is handed to the value encoder.
    A message with [undefined] for the key fails as one without it, and so
    does a message with [null] for it when the field's type is not [enum];
    when the type is [enum], a [null] is not reported as missing and is
    handed to the value encoder as the field's value. *)
Theorem encodeData_missing_field
    (ext : Collaborators) (fuel : nat) (types : Types) (type : string)
    (props : list (string * value)) (revision : Revision)
    (before : list StarknetType) (field : StarknetType) (after : list StarknetType)
    (typeHash : string) (ts : list string) (vs : list value) :
  let step := encodeFieldWith ext (encodeValue ext fuel) types type (VObj props) revision in
  let encoded := encodeData ext fuel types type (VObj props) revision in
  let ctx := mkContext (Some type) (Some (f_name field)) in
  targetTypeOf ext types type revision = Some (before ++ field :: after)%list ->
  getTypeHash ext fuel types type revision = Return typeHash ->
  reduceO step before (["felt"], [VStr typeHash]) = Return (ts, vs) ->
  (Js.assoc (f_name field) props = None -> Js.inheritedName (f_name field) = false ->
   encoded = Throw (MissingData (f_name field))) /\
  (Js.assoc (f_name field) props = None -> Js.inheritedName (f_name field) = true ->
   encoded
   = ('(t, encodedValue) ← encodeValue ext fuel types (f_type field)
                             (VNative (f_name field)) ctx revision;
      reduceO step after (ts ++ [t], vs ++ [encodedValue])%list)) /\
  (Js.assoc (f_name field) props = Some VUndefined ->
   encoded = Throw (MissingData (f_name field))) /\
  (Js.assoc (f_name field) props = Some VNull -> f_type field <> "enum" ->
   encoded = Throw (MissingData (f_name field))) /\
  (Js.assoc (f_name field) props = Some VNull -> f_type field = "enum" ->
   encoded
   = ('(t, encodedValue) ← encodeValue ext fuel types "enum" VNull ctx revision;
      reduceO step after (ts ++ [t], vs ++ [encodedValue])%list)).
Proof.
  intros step encoded ctx Htarget Hhash Hbefore.
  pose (value := default (if Js.inheritedName (f_name field)
                          then VNative (f_name field) else VUndefined)
                         (Js.assoc (f_name field) props)).
  assert (Hencoded :
            encoded
            = (if Js.strictEq value VUndefined
                  || (Js.strictEq value VNull && negb (String.eqb (f_type field) "enum"))
               then Throw (MissingData (f_name field))
               else
                 '(t, encodedValue) ← encodeValue ext fuel types (f_type field) value
                                        ctx revision;
                 Return (ts ++ [t], vs ++ [encodedValue])%list)
              ≫= reduceO step after).
  { unfold encoded, encodeData, encodeDataWith. rewrite Htarget, Hhash, bind_Return.
    fold step. rewrite reduceO_app, Hbefore, bind_Return. reflexivity. }
  rewrite Hencoded. unfold value. clear Hencoded value.
  split; [|split; [|split; [|split]]].
  - intros -> ->. reflexivity.
  - intros -> ->.
    change (default (VNative (f_name field)) None) with (VNative (f_name field)).
    cbn [Js.strictEq orb andb].
    destruct (encodeValue ext fuel types (f_type field) (VNative (f_name field))
                ctx revision) as [[t ev]| |];
      reflexivity.
  - intros ->. reflexivity.
  - intros -> Hnot. apply String.eqb_neq in Hnot.
    change (default _ (Some VNull)) with VNull.
    cbn [Js.strictEq orb andb]. rewrite Hnot. reflexivity.
  - intros -> His. rewrite His.
    change (default _ (Some VNull)) with VNull.
    destruct (encodeValue ext fuel types "enum" VNull _ revision) as [[t ev]| |];
      reflexivity.
Qed.

Lemma encodeData_missing_field_witness :
  encodeData Demo.ext 2 Demo.mailTypes "Person" (VObj [("name", VStr "Bob")]) LEGACY
  = Throw (MissingData "wallet") /\
  encodeData Demo.ext 2 Demo.mailTypes "Person"
    (VObj [("name", VStr "Bob"); ("wallet", VNull)]) LEGACY
  = Throw (MissingData "wallet") /\
  encodeData Demo.ext 2 cardTypes "Card" (VObj [("name", VStr "Bob")]) LEGACY
  = Throw (InvalidBigNumberish (VNative "toString")).
Proof.
  split; [|split].
  - destruct (encodeData_missing_field Demo.ext 2 Demo.mailTypes "Person"
                [("name", VStr "Bob")] LEGACY
                [field "name" "felt"] (field "wallet" "felt") []
                "selector[Person(name:felt,wallet:felt)]"
                ["felt"; "felt"]
                [VStr "selector[Person(name:felt,wallet:felt)]"; VStr "0x426f62"]
                ltac:(vm_compute; reflexivity) ltac:(vm_compute; reflexivity)
                ltac:(vm_compute; reflexivity)) as (H & _).
    apply H; reflexivity.
  - destruct (encodeData_missing_field Demo.ext 2 Demo.mailTypes "Person"
                [("name", VStr "Bob"); ("wallet", VNull)] LEGACY
                [field "name" "felt"] (field "wallet" "felt") []
                "selector[Person(name:felt,wallet:felt)]"
                ["felt"; "felt"]
                [VStr "selector[Person(name:felt,wallet:felt)]"; VStr "0x426f62"]
                ltac:(vm_compute; reflexivity) ltac:(vm_compute; reflexivity)
                ltac:(vm_compute; reflexivity)) as (_ & _ & _ & H & _).
    apply H; [reflexivity | discriminate].
  - destruct (encodeData_missing_field Demo.ext 2 cardTypes "Card"
                [("name", VStr "Bob")] LEGACY
                [field "name" "felt"] (field "toString" "felt") []
                "selector[Card(name:felt,toString:felt)]"
                ["felt"; "felt"]
                [VStr "selector[Card(name:felt,toString:felt)]"; VStr "0x426f62"]
                ltac:(vm_compute; reflexivity) ltac:(vm_compute; reflexivity)
                ltac:(vm_compute; reflexivity)) as (_ & H & _).
    rewrite H by reflexivity. vm_compute. reflexivity.
Defined.

(** ** The type signature *)

Section Sorting.

Import JsString.

Lemma insert_Permutation x l : Permutation (insert x l) (x :: l).
Proof.
  induction l as [|y l IH]; simpl; [reflexivity|].
  destruct (String.leb x y); [reflexivity|].
  rewrite IH. apply perm_swap.
Qed.

Lemma sort_Permutation l : Permutation (sort l) l.
Proof.
  induction l as [|x l IH]; simpl; [reflexivity|].
  rewrite insert_Permutation, IH. reflexivity.
Qed.

Lemma insert_HdRel a x l : leS a x -> HdRel leS a l -> HdRel leS a (insert x l).
Proof.
  intros Hax Hl. destruct l as [|y l]; simpl; [constructor; exact Hax|].
  destruct (String.leb x y); constructor; [exact Hax|].
  inversion Hl; assumption.
Qed.

Lemma insert_Sorted x l : Sorted leS l -> Sorted leS (insert x l).
Proof.
  induction 1 as [|y l Hl IH Hy]; simpl; [repeat constructor|].
  destruct (String.leb x y) eqn:E.
  - constructor; [constructor; assumption|]. constructor. exact E.
  - constructor; [exact IH|]. apply insert_HdRel; [|exact Hy].
    destruct (String.leb_total x y) as [H|H]; [congruence | exact H].
Qed.

Lemma sort_Sorted l : Sorted leS (sort l).
Proof. induction l as [|x l IH]; simpl; [constructor | apply insert_Sorted, IH]. Qed.

End Sorting.

Section Tuples.

Import JsString JsStringFacts.

Lemma split_lacks c s : lacks c s = true -> split c s = [s].
Proof.
  induction s as [|a s IH]; simpl; [reflexivity|].
  intros H. apply andb_true_iff in H. destruct H as [Ha Hs].
  apply negb_true_iff in Ha. rewrite Ha, (IH Hs). reflexivity.
Qed.

Lemma split_app c s rest :
  lacks c s = true -> split c (s ++ String c rest) = s :: split c rest.
Proof.
  induction s as [|a s IH]; simpl.
  - intros _. rewrite Ascii.eqb_refl. reflexivity.
  - intros H. apply andb_true_iff in H. destruct H as [Ha Hs].
    apply negb_true_iff in Ha. rewrite Ha, (IH Hs). reflexivity.
Qed.

(** Splitting at the commas undoes joining with commas. *)
Lemma split_join (es : list string) :
  es <> [] -> Forall (fun e => lacks ","%char e = true) es ->
  split ","%char (join "," es) = es.
Proof.
  intros Hne Hall. induction Hall as [|e es He Hes IH]; [congruence|].
  destruct es as [|e' es]; [apply split_lacks, He|].
  change (join "," (e :: e' :: es)) with (e ++ String ","%char (join "," (e' :: es))).
  rewrite split_app by exact He. f_equal. apply IH. discriminate.
Qed.

Lemma noLineTerminator_join (es : list string) :
  Forall (fun e => noLineTerminator e = true) es ->
  noLineTerminator (join "," es) = true.
Proof.
  assert (Happ : forall a b, noLineTerminator a = true -> noLineTerminator b = true ->
                             noLineTerminator (a ++ b) = true).
  { induction a as [|c a IH]; simpl; [auto|]. intros b Ha Hb.
    apply andb_true_iff in Ha. destruct Ha as [Hc Ha]. rewrite Hc. simpl. auto. }
  induction 1 as [|e es He Hes IH]; [reflexivity|].
  destruct es as [|e' es]; [exact He|].
  change (join "," (e :: e' :: es)) with (e ++ String ","%char (join "," (e' :: es))).
  apply Happ; [exact He|]. simpl. exact IH.
Qed.

Lemma isParenthesized_wrap inner :
  noLineTerminator inner = true -> isParenthesized ("(" ++ inner ++ ")") = true.
Proof.
  intros H. change ("(" ++ inner ++ ")") with (String "("%char (inner ++ ")")).
  unfold isParenthesized.
  rewrite endsWith_snoc, dropLast_snoc, H. destruct inner; reflexivity.
Qed.

(** A tuple type string is rendered element by element. *)
Lemma encodeFieldType_tuple (esc : string -> string) (es : list string) :
  es <> [] ->
  Forall (fun e => lacks ","%char e = true) es ->
  Forall (fun e => noLineTerminator e = true) es ->
  encodeFieldType esc ("(" ++ join "," es ++ ")")
  = "(" ++ join "," (List.map (fun e => if String.eqb e "" then e else esc e) es) ++ ")".
Proof.
  intros Hne Hcomma Hline. unfold encodeFieldType.
  rewrite isParenthesized_wrap by (apply noLineTerminator_join, Hline).
  change (slice1m1 ("(" ++ join "," es ++ ")")) with (dropLast (join "," es ++ ")")).
  rewrite dropLast_snoc, split_join by assumption. reflexivity.
Qed.

End Tuples.

Example encodeFieldType_examples :
  let esc := fun s => String quote (s ++ String quote "") in
  encodeFieldType esc "(u128,u128*)" = String "("%char (esc "u128" ++ "," ++ esc "u128*" ++ ")") /\
  encodeFieldType esc "()" = "()" /\
  encodeFieldType esc "(felt,)" = String "("%char (esc "felt" ++ ",)") /\
  encodeFieldType esc "felt" = esc "felt".
Proof. vm_compute. repeat split. Qed.
Lemma mapIndexedM_Return {A B : Type} (f : nat -> A -> outcome B) (g : A -> B) (l : list A) :
  (forall i x, x ∈ l -> f i x = Return (g x)) ->
  forall i, mapIndexedM f i l = Return (List.map g l).
Proof.
  induction l as [|x l IH]; intros Hf i; [reflexivity|].
  simpl. rewrite Hf by left. rewrite bind_Return, IH; [reflexivity|].
  intros j y Hy. apply Hf. right. exact Hy.
Qed.

Lemma mapM_Return {A B : Type} (f : A -> outcome B) (g : A -> B) (l : list A) :
  (forall x, x ∈ l -> f x = Return (g x)) -> mapM f l = Return (List.map g l).
Proof. intros Hf. apply mapIndexedM_Return. auto. Qed.

Lemma join_empty_concat l : JsString.join "" l = String.concat "" l.
Proof.
  induction l as [|x l IH]; [reflexivity|].
  destruct l as [|y l]; [reflexivity|].
  change (JsString.join "" (x :: y :: l)) with (x ++ "" ++ JsString.join "" (y :: l)).
  rewrite IH. reflexivity.
Qed.

(** Every name [getDependencies] lists is declared in the universe. *)
Lemma getDependencies_declared fuel types type contains revision l :
  getDependencies fuel types type [] contains revision = Return l ->
  forall name, name ∈ l -> is_Some (types !! name).
Proof.
  destruct fuel as [|fuel]; [discriminate|]. intros H.
  apply getDependencies_shape in H. destruct H as [->|(rest & -> & _ & Hexp)].
  - intros name Hin. inversion Hin.
  - intros name Hin. apply elem_of_cons in Hin. destruct Hin as [->|Hin].
    + destruct Hexp as (fields & -> & _). eauto.
    + destruct Hexp as (fields & _ & Hrest).
      destruct (fieldDependencies_expanded _ _ _ _ _ Hrest _ Hin)
        as (k & rest' & _ & fields' & -> & _).
      eauto.
Qed.

Section Signature.

Context (ext : Collaborators).

Lemma encodeField_Return revision t :
  wellFormedField revision t ->
  encodeField ext revision t = Return (fieldString ext revision t).
Proof.
  intros Hwf. unfold encodeField, fieldString, fieldTarget.
  destruct revision; [|destruct (String.eqb (f_type t) "enum"); reflexivity].
  destruct (String.eqb (f_type t) "enum") eqn:E; [|reflexivity].
  apply String.eqb_eq in E. destruct (Hwf eq_refl E) as [c ->]. reflexivity.
Qed.

Lemma encodeDependency_Return allTypes revision name fields :
  allTypes !! name = Some fields ->
  Forall (wellFormedField revision) fields ->
  encodeDependency ext allTypes revision name = Return (blockOf ext allTypes revision name).
Proof.
  intros Hfields Hwf. unfold encodeDependency, blockOf. rewrite Hfields.
  rewrite (mapM_Return _ (fieldString ext revision)); [reflexivity|].
  intros t Ht. apply encodeField_Return. rewrite Forall_forall in Hwf. auto.
Qed.

End Signature.

(** C4, as stated, fails on the [enum] fields: the field is rendered with
    the name its [contains] gives, escaped, and not with a tuple type string
    of the type that holds the variants.  In the enum example the field
    [someEnum] is rendered [someEnum:MyEnum] (quoted), and neither tuple of
    [MyEnum] is [MyEnum]. *)
Lemma encodeType_enum_counterexample :
  ~ (forall (ext : Collaborators) (types : Types) (t : StarknetType) (rendered : string),
       f_type t = "enum" ->
       encodeField ext ACTIVE t = Return rendered ->
       exists tuple,
         In tuple (variantTupleStrings ext types t) /\
         rendered
         = Configuration.escapeTypeString (revisionConfiguration ext ACTIVE) (f_name t)
             ++ ":" ++ tuple).
Proof.
  intros H.
  destruct (H Demo.ext Demo.enumTypes (mkType "someEnum" "enum" (Some "MyEnum")) _
              eq_refl eq_refl) as (tuple & Hin & Heq).
  vm_compute in Hin. vm_compute in Heq.
  destruct Hin as [<-|[<-|[]]]; discriminate Heq.
Qed.

(** C4 (amended).  [encodeType] resolves the dependencies of the type over
    the universe (extended with the preset types under the active
    revision).  When the type is not found there the result is the empty
    string, unless its name is a property name every object inherits from
    [Object.prototype] ([toString], [constructor], ...), for which the
    resolution throws a [TypeError].  Otherwise the result is the blocks of
    the primary type and then of its other dependencies in ascending order,
    with nothing between the blocks; a block is the escaped name followed,
    in parentheses, by the comma-separated fields, each the escaped field
    name, a colon and the rendered type string.  The type string rendered
    is the declared type, except for an [enum] field of the active
    revision, where it is the [contains] reference (the name of the type
    holding the variants); a parenthesized tuple is rendered by escaping
    each non-empty element between its commas, any other string by escaping
    it whole.  (A primary type of empty name counts as not found.) *)
Theorem encodeType_signature
    (ext : Collaborators) (fuel : nat) (types : Types) (type : string)
    (revision : Revision) :
  let allTypes := allTypesOf ext types revision in
  let name := normalizeType type "" revision in
  let esc := Configuration.escapeTypeString (revisionConfiguration ext revision) in
  (forall rank, ranked allTypes revision rank -> is_Some (allTypes !! name) ->
     (2 + rank name <= fuel)%nat ->
     exists found, getDependencies fuel allTypes type [] "" revision = Return found) /\
  ((1 <= fuel)%nat -> allTypes !! name = None ->
   encodeType ext fuel types type revision
   = if Js.inheritedName name then Throw TypeError else Return "") /\
  (forall dependencies,
     getDependencies fuel allTypes type [] "" revision = Return (name :: dependencies) ->
     (forall n fields, n ∈ name :: dependencies -> allTypes !! n = Some fields ->
        Forall (wellFormedField revision) fields) ->
     Permutation (JsString.sort dependencies) dependencies /\
     Sorted leS (JsString.sort dependencies) /\
     encodeType ext fuel types type revision
     = Return (if String.eqb name "" then ""
               else signature ext allTypes revision (name :: JsString.sort dependencies))) /\
  (forall es,
     es <> [] ->
     Forall (fun e => lacks ","%char e = true) es ->
     Forall (fun e => JsString.noLineTerminator e = true) es ->
     encodeFieldType esc ("(" ++ JsString.join "," es ++ ")")
     = "(" ++ JsString.join ","
                (List.map (fun e => if String.eqb e "" then e else esc e) es) ++ ")") /\
  (forall target,
     JsString.isParenthesized target = false -> encodeFieldType esc target = esc target).
Proof.
  intros allTypes name esc. split; [|split; [|split; [|split]]].
  - intros rank Hrank Hdeclared Hfuel.
    destruct (getDependencies_ranked allTypes revision rank Hrank (S (rank name))
                type [] "") as [l Hl]; [fold name; intros _; split; [exact Hdeclared | lia]|].
    exists l. eapply getDependencies_mono; [|exact Hl]. lia.
  - intros Hfuel Hnone. destruct fuel as [|fuel]; [lia|].
    unfold encodeType. fold allTypes.
    destruct (Js.inheritedName name) eqn:Hinherited.
    + rewrite getDependencies_inherited;
        [reflexivity | exact Hnone | exact Hinherited | apply not_elem_of_nil].
    + rewrite getDependencies_undeclared by (apply hasType_false; auto).
      reflexivity.
  - intros dependencies Hfound Hwf.
    split; [apply sort_Permutation|]. split; [apply sort_Sorted|].
    unfold encodeType. fold allTypes. rewrite Hfound, bind_Return.
    destruct (String.eqb name "") eqn:E; [reflexivity|].
    rewrite (mapM_Return _ (blockOf ext allTypes revision)).
    + rewrite bind_Return, join_empty_concat. reflexivity.
    + intros n Hn.
      assert (Hin : n ∈ name :: dependencies).
      { apply elem_of_cons in Hn. destruct Hn as [->|Hn]; [left|right].
        rewrite <- (sort_Permutation dependencies). exact Hn. }
      destruct (getDependencies_declared _ _ _ _ _ _ Hfound n Hin) as [fields Hfields].
      eapply encodeDependency_Return; [exact Hfields|]. eapply Hwf; eauto.
  - apply encodeFieldType_tuple.
  - intros target H. unfold encodeFieldType. rewrite H. reflexivity.
Qed.

Lemma encodeType_signature_witness :
  encodeType Demo.ext 4 Demo.enumTypes "Example" ACTIVE
  = Return (quoted "Example" ++ "(" ++ quoted "someEnum" ++ ":" ++ quoted "MyEnum" ++ ")"
            ++ quoted "MyEnum" ++ "(" ++ quoted "Variant 1" ++ ":(),"
            ++ quoted "Variant 2" ++ ":(" ++ quoted "u128" ++ "," ++ quoted "u128*" ++ "))") /\
  encodeType Demo.ext 4 Demo.enumTypes "felt" ACTIVE = Return "" /\
  encodeType Demo.ext 4 Demo.enumTypes "toString" ACTIVE = Throw TypeError /\
  exists found,
    getDependencies 4 (allTypesOf Demo.ext Demo.enumTypes ACTIVE) "Example" [] "" ACTIVE
    = Return found.
Proof.
  split; [|split; [|split]].
  - destruct (encodeType_signature Demo.ext 4 Demo.enumTypes "Example" ACTIVE)
      as (_ & _ & Hfound & _ & _).
    destruct (Hfound ["MyEnum"]) as (_ & _ & ->); [vm_compute; reflexivity | |].
    + intros n fields Hn Hlookup. rewrite list_elem_of_In in Hn. simpl in Hn.
      destruct Hn as [<-|[<-|[]]]; vm_compute in Hlookup; injection Hlookup as <-;
        repeat constructor; intros _ Henum; try discriminate Henum; eauto.
    + vm_compute. reflexivity.
  - destruct (encodeType_signature Demo.ext 4 Demo.enumTypes "felt" ACTIVE)
      as (_ & Hnone & _).
    apply Hnone; [lia | vm_compute; reflexivity].
  - destruct (encodeType_signature Demo.ext 4 Demo.enumTypes "toString" ACTIVE)
      as (_ & Hnone & _).
    apply Hnone; [lia | vm_compute; reflexivity].
  - destruct (encodeType_signature Demo.ext 4 Demo.enumTypes "Example" ACTIVE)
      as (Hreturns & _).
    apply (Hreturns (fun name => if JsString.includes name ["Example"; "TokenAmount"; "NftId"]
                                 then 1%nat else 0%nat)).
    + ranked_by_computation.
    + vm_compute. eauto.
    + vm_compute. lia.
Defined.

(** * Further properties *)

(** ** The dependency resolver, continued *)

Section DependenciesClosed.

Import JsString JsStringFacts.

Variable types : Types.
Variable revision : Revision.

Lemma getDependencies_cases fuel type dependencies contains l :
  getDependencies (S fuel) types type dependencies contains revision = Return l ->
  (l = dependencies /\
   (normalizeType type contains revision ∈ dependencies \/
    types !! normalizeType type contains revision = None)) \/
  exists rest, l = (normalizeType type contains revision :: rest) /\
               (normalizeType type contains revision ∉ dependencies) /\
               expands types revision fuel (normalizeType type contains revision) rest.
Proof.
  rewrite getDependencies_unfold. unfold resolved.
  destruct (includes _ dependencies) eqn:I.
  { intros [= <-]. left. split; [reflexivity|]. left. apply includes_In, I. }
  destruct (hasType types _) eqn:Hhas; cbn [orb negb].
  2:{ intros [= <-]. left. split; [reflexivity|]. right. apply hasType_false in Hhas. tauto. }
  destruct (types !! _) as [fields|] eqn:T; [|discriminate].
  intros H. apply bind_Return_inv in H. destruct H as (rest & R & [= <-]).
  right. exists rest. split; [reflexivity|]. split.
  - apply includes_false, I.
  - exists fields. auto.
Qed.

Lemma closedUnderFields_addNew previous found :
  closedUnderFields types revision previous ->
  closedUnderFields types revision found ->
  closedUnderFields types revision (addNew previous found).
Proof.
  intros Hp Hf name fields t Hin Hfields Ht Hdecl.
  apply elem_of_addNew. apply elem_of_addNew in Hin. destruct Hin as [Hin|Hin].
  - left. eapply Hp; eauto.
  - right. eapply Hf; eauto.
Qed.

Lemma closedUnderFields_cons name rest fields :
  types !! name = Some fields ->
  closedUnderFields types revision rest ->
  (forall t, t ∈ fields -> is_Some (types !! fieldTargetName revision t) ->
             fieldTargetName revision t ∈ rest) ->
  closedUnderFields types revision (name :: rest).
Proof.
  intros Hfields Hrest Hcover n fs t Hin Hfs Ht Hdecl.
  apply elem_of_cons in Hin. destruct Hin as [->|Hin].
  - right. rewrite Hfields in Hfs. injection Hfs as <-. auto.
  - right. eapply Hrest; eauto.
Qed.

(** The names gathered so far stay in the result of the reducer. *)
Lemma fieldDependencies_keeps fuel : forall fields previous rest x,
  reduceO
    (fun previous t =>
       found ← getDependencies fuel types (f_type t) previous
                 (default "" (f_contains t)) revision;
       Return (addNew previous found)) fields previous = Return rest ->
  x ∈ previous -> x ∈ rest.
Proof.
  induction fields as [|t fields IH]; intros previous rest x; cbn [reduceO].
  - intros [= <-]. auto.
  - intros H Hx. apply bind_Return_inv in H. destruct H as (b & Hb & H).
    apply bind_Return_inv in Hb. destruct Hb as (found & _ & [= <-]).
    eapply IH; [exact H|]. apply elem_of_addNew. auto.
Qed.

Lemma fieldDependencies_closed fuel : forall fields rest,
  fieldDependencies fuel types fields revision = Return rest ->
  closedUnderFields types revision rest /\
  (forall t, t ∈ fields -> is_Some (types !! fieldTargetName revision t) ->
             fieldTargetName revision t ∈ rest).
Proof.
  induction fuel as [|fuel IH]; intros fields rest.
  - destruct fields as [|t fields]; simpl; [|discriminate].
    intros [= <-]. split.
    + intros name fs t Hin. inversion Hin.
    + intros t Hin. inversion Hin.
  - unfold fieldDependencies.
    assert (Hnil : closedUnderFields types revision [])
      by (intros name fs t Hin; inversion Hin).
    revert Hnil. generalize (@nil string) as previous. revert rest.
    induction fields as [|t fields IHf]; intros rest previous Hprev; cbn [reduceO].
    + intros [= <-]. split; [exact Hprev|]. intros t Hin. inversion Hin.
    + intros Hrest. apply bind_Return_inv in Hrest. destruct Hrest as (b & Hb & Hrest).
      apply bind_Return_inv in Hb. destruct Hb as (found & F & [= <-]).
      assert (Hfound : closedUnderFields types revision (addNew previous found) /\
                       (is_Some (types !! fieldTargetName revision t) ->
                        fieldTargetName revision t ∈ addNew previous found)).
      { apply getDependencies_cases in F.
        destruct F as [[-> Hwhy]|(rest' & -> & _ & fs & Hfs & Hr)].
        - split; [apply closedUnderFields_addNew; assumption|].
          intros Hdecl. apply elem_of_addNew. left.
          destruct Hwhy as [Hin|Hnone]; [exact Hin|].
          unfold fieldTargetName in Hdecl. rewrite Hnone in Hdecl.
          destruct Hdecl as [? [=]].
        - destruct (IH _ _ Hr) as [Hclosed Hcover]. split.
          + apply closedUnderFields_addNew; [exact Hprev|].
            eapply closedUnderFields_cons; eauto.
          + intros _. apply elem_of_addNew. right. left. }
      destruct Hfound as [Hclosed Htarget].
      destruct (IHf _ _ Hclosed Hrest) as [Hc Hcover].
      split; [exact Hc|].
      intros t' Hin Hdecl. apply elem_of_cons in Hin. destruct Hin as [->|Hin]; [|auto].
      eapply fieldDependencies_keeps; [exact Hrest|]. auto.
Qed.

End DependenciesClosed.

(** X1.  The names [getDependencies] returns from an empty accumulator are
    all declared in the universe, and the list is complete: with a type it
    holds every declared type the fields of that type resolve to (array
    marker stripped, and for the active revision the [contains] of an
    [enum] and the inside of a tuple). *)
Theorem getDependencies_declared_and_closed
    (fuel : nat) (types : Types) (type contains : string) (revision : Revision)
    (l : list string) :
  getDependencies fuel types type [] contains revision = Return l ->
  (forall name, name ∈ l -> is_Some (types !! name)) /\
  closedUnderFields types revision l.
Proof.
  intros H. split; [eapply getDependencies_declared, H|].
  destruct fuel as [|fuel]; [discriminate|].
  apply getDependencies_cases in H.
  destruct H as [[-> _]|(rest & -> & _ & fields & Hfields & Hrest)].
  - intros name fs t Hin. inversion Hin.
  - destruct (fieldDependencies_closed types revision _ _ _ Hrest) as [Hclosed Hcover].
    eapply closedUnderFields_cons; eauto.
Qed.

Lemma getDependencies_declared_and_closed_witness :
  (forall name, name ∈ ["Mail"; "Person"] -> is_Some (Demo.mailTypes !! name)) /\
  closedUnderFields Demo.mailTypes LEGACY ["Mail"; "Person"].
Proof.
  apply (getDependencies_declared_and_closed 3 Demo.mailTypes "Mail" "" LEGACY).
  vm_compute. reflexivity.
Defined.

(** X2.  The accumulator of [getDependencies] only cuts the search short.
    A call with fuel returns the accumulator itself when the resolved name
    is in it, or when [types[name]] is false (the name is not declared and
    is no name every object inherits).  Otherwise the call has the outcome
    it has from the empty accumulator, in which the names of the
    accumulator have no part: a list headed by the name when the name is
    declared, a [TypeError] when it is an undeclared name of
    [Object.prototype]. *)
Theorem getDependencies_accumulator
    (fuel : nat) (types : Types) (type : string) (dependencies : list string)
    (contains : string) (revision : Revision) :
  let name := normalizeType type contains revision in
  let answer := getDependencies (S fuel) types type dependencies contains revision in
  (name ∈ dependencies \/ hasType types name = false -> answer = Return dependencies) /\
  (name ∉ dependencies -> hasType types name = true ->
   answer = getDependencies (S fuel) types type [] contains revision) /\
  (name ∉ dependencies -> types !! name = None -> Js.inheritedName name = true ->
   answer = Throw TypeError) /\
  (name ∉ dependencies -> is_Some (types !! name) ->
   forall l, answer = Return l -> head l = Some name).
Proof.
  intros name answer. unfold answer. rewrite !getDependencies_unfold.
  unfold resolved. fold name.
  split; [|split; [|split]].
  - intros [Hin|Hnone].
    + apply JsStringFacts.includes_In in Hin. rewrite Hin. reflexivity.
    + rewrite Hnone, orb_true_r. reflexivity.
  - intros Hnotin Hhas.
    apply JsStringFacts.includes_false in Hnotin. rewrite Hnotin, Hhas. reflexivity.
  - intros Hnotin Hnone Hinherited.
    apply JsStringFacts.includes_false in Hnotin.
    rewrite Hnotin, (hasType_inherited _ _ Hinherited), Hnone. reflexivity.
  - intros Hnotin [fields Hfields] l.
    apply JsStringFacts.includes_false in Hnotin.
    rewrite Hnotin, (hasType_declared types name), Hfields by (rewrite Hfields; eauto).
    cbn [orb negb]. intros H.
    apply bind_Return_inv in H. destruct H as (rest & _ & [= <-]). reflexivity.
Qed.

Lemma getDependencies_accumulator_witness :
  getDependencies 3 Demo.mailTypes "Person*" ["Person"] "" LEGACY = Return ["Person"] /\
  getDependencies 3 Demo.mailTypes "felt" ["Person"] "" LEGACY = Return ["Person"] /\
  getDependencies 3 Demo.mailTypes "Mail" ["Person"] "" LEGACY
  = getDependencies 3 Demo.mailTypes "Mail" [] "" LEGACY /\
  getDependencies 3 Demo.mailTypes "valueOf" ["Person"] "" LEGACY = Throw TypeError /\
  head ["Mail"; "Person"] = Some "Mail".
Proof.
  assert (Hfresh : forall name, name <> "Person" -> name ∉ ["Person"]).
  { intros name Hne Hin. apply elem_of_cons in Hin.
    destruct Hin as [->|Hin]; [congruence | inversion Hin]. }
  split; [|split; [|split; [|split]]].
  - destruct (getDependencies_accumulator 2 Demo.mailTypes "Person*" ["Person"] "" LEGACY)
      as (H & _).
    apply H. left. left.
  - destruct (getDependencies_accumulator 2 Demo.mailTypes "felt" ["Person"] "" LEGACY)
      as (H & _).
    apply H. right. vm_compute. reflexivity.
  - destruct (getDependencies_accumulator 2 Demo.mailTypes "Mail" ["Person"] "" LEGACY)
      as (_ & H & _).
    apply H; [apply Hfresh; discriminate | vm_compute; reflexivity].
  - destruct (getDependencies_accumulator 2 Demo.mailTypes "valueOf" ["Person"] "" LEGACY)
      as (_ & _ & H & _).
    apply H; [apply Hfresh; discriminate | vm_compute; reflexivity..].
  - destruct (getDependencies_accumulator 2 Demo.mailTypes "Mail" ["Person"] "" LEGACY)
      as (_ & _ & _ & H).
    apply H; [apply Hfresh; discriminate | vm_compute; eauto | vm_compute; reflexivity].
Defined.

(** ** The struct encoder, continued *)

Lemma allTypesOf_preset_insert ext types name fields :
  is_Some (presetTypesTable !! name) ->
  allTypesOf ext (<[name := fields]> types) ACTIVE = allTypesOf ext types ACTIVE.
Proof.
  intros [preset Hpreset]. unfold allTypesOf. cbn [revisionConfiguration Configuration.presetTypes].
  apply map_eq. intros k. rewrite !lookup_union.
  destruct (decide (k = name)) as [->|Hne].
  - rewrite Hpreset, lookup_insert_eq. destruct (types !! name); reflexivity.
  - rewrite lookup_insert_ne by congruence. reflexivity.
Qed.

(** X3.  Under the active revision a preset type name belongs to the preset
    library as far as type strings go: a declaration of that name in the
    document's types changes neither [encodeType] nor [getTypeHash], for
    any type queried.  The struct encoder nevertheless takes the fields to
    encode from the document's declaration. *)
Theorem encodeType_preset_shadows
    (ext : Collaborators) (fuel : nat) (types : Types) (name : string)
    (fields : list StarknetType) (type : string) :
  is_Some (presetTypesTable !! name) ->
  encodeType ext fuel (<[name := fields]> types) type ACTIVE
  = encodeType ext fuel types type ACTIVE /\
  getTypeHash ext fuel (<[name := fields]> types) type ACTIVE
  = getTypeHash ext fuel types type ACTIVE /\
  targetTypeOf ext (<[name := fields]> types) name ACTIVE = Some fields.
Proof.
  intros Hpreset.
  assert (Htype : encodeType ext fuel (<[name := fields]> types) type ACTIVE
                  = encodeType ext fuel types type ACTIVE).
  { unfold encodeType. rewrite allTypesOf_preset_insert by exact Hpreset. reflexivity. }
  split; [exact Htype|]. split.
  - unfold getTypeHash. rewrite Htype. reflexivity.
  - unfold targetTypeOf. rewrite lookup_insert_eq. reflexivity.
Qed.

Lemma encodeType_preset_shadows_witness :
  encodeType Demo.ext 3 ownU256Types "u256" ACTIVE
  = Return (quoted "u256" ++ "(" ++ quoted "low" ++ ":" ++ quoted "u128" ++ ","
            ++ quoted "high" ++ ":" ++ quoted "u128" ++ ")") /\
  targetTypeOf Demo.ext ownU256Types "u256" ACTIVE = Some [field "value" "felt"].
Proof.
  destruct (encodeType_preset_shadows Demo.ext 3 Demo.mailTypes "u256"
              [field "value" "felt"] "u256" ltac:(vm_compute; eauto)) as (H & _ & Ht).
  split; [|exact Ht]. unfold ownU256Types. rewrite H. vm_compute. reflexivity.
Defined.

Lemma reduceO_encoded ext fuel types type data revision : forall fields ts0 vs0 ts vs,
  reduceO (encodeFieldWith ext (encodeValue ext fuel) types type data revision)
    fields (ts0, vs0)
  = Return (ts, vs) ->
  exists results,
    ts = (ts0 ++ List.map fst results)%list /\
    vs = (vs0 ++ List.map snd results)%list /\
    Forall2 (encodedAs ext fuel types type data revision) fields results.
Proof.
  induction fields as [|field fields IH]; intros ts0 vs0 ts vs; cbn [reduceO].
  - intros [= <- <-]. exists []. rewrite !app_nil_r. repeat split. constructor.
  - intros H. apply bind_Return_inv in H. destruct H as ([ts1 vs1] & Hstep & Hrest).
    unfold encodeFieldWith in Hstep.
    apply bind_Return_inv in Hstep. destruct Hstep as (value & Hvalue & Hstep).
    destruct (Js.strictEq value VUndefined
              || Js.strictEq value VNull && negb (String.eqb (f_type field) "enum")) eqn:C;
      [discriminate|].
    apply bind_Return_inv in Hstep. destruct Hstep as ([t e] & Hencode & Hret).
    injection Hret as <- <-.
    destruct (IH _ _ _ _ Hrest) as (results & -> & -> & Hall).
    exists ((t, e) :: results). cbn [List.map fst snd].
    rewrite <- !app_assoc. repeat split.
    constructor; [|exact Hall].
    exists value. split; [exact Hvalue|]. split; [|exact Hencode].
    intros ->. discriminate C.
Qed.

(** X4.  What [encodeData] returns is one tag and one value for the type
    hash, the tag [felt] and the hash itself, followed by the tag and the
    value [encodeValue] answered for each declared field in order: both
    lists have one element more than the type has fields. *)
Theorem encodeData_shape
    (ext : Collaborators) (fuel : nat) (types : Types) (type : string) (data : value)
    (revision : Revision) (ts : list string) (vs : list value) :
  encodeData ext fuel types type data revision = Return (ts, vs) ->
  exists fields typeHash results,
    targetTypeOf ext types type revision = Some fields /\
    getTypeHash ext fuel types type revision = Return typeHash /\
    ts = "felt" :: List.map fst results /\
    vs = VStr typeHash :: List.map snd results /\
    Forall2 (encodedAs ext fuel types type data revision) fields results /\
    length ts = S (length fields) /\ length vs = S (length fields).
Proof.
  unfold encodeData, encodeDataWith.
  destruct (targetTypeOf ext types type revision) as [fields|].
  2:{ destruct (Js.inheritedName type); [|discriminate].
      intros H. apply bind_Return_inv in H. destruct H as (? & _ & [=]). }
  intros H. apply bind_Return_inv in H. destruct H as (typeHash & Hhash & Hreduce).
  apply reduceO_encoded in Hreduce. destruct Hreduce as (results & -> & -> & Hall).
  exists fields, typeHash, results. repeat split; try assumption.
  - simpl. rewrite length_map. f_equal. symmetry. eapply Forall2_length, Hall.
  - simpl. rewrite length_map. f_equal. symmetry. eapply Forall2_length, Hall.
Qed.

Lemma encodeData_shape_witness :
  exists fields typeHash results,
    targetTypeOf Demo.ext Demo.mailTypes "Person" LEGACY = Some fields /\
    getTypeHash Demo.ext 2 Demo.mailTypes "Person" LEGACY = Return typeHash /\
    ["felt"; "felt"; "felt"] = "felt" :: List.map fst results /\
    [VStr "selector[Person(name:felt,wallet:felt)]"; VStr "0x426f62"; VStr "0xb0"]
    = VStr typeHash :: List.map snd results /\
    Forall2 (encodedAs Demo.ext 2 Demo.mailTypes "Person"
               (VObj [("name", VStr "Bob"); ("wallet", VStr "0xb0")]) LEGACY)
            fields results /\
    length ["felt"; "felt"; "felt"] = S (length fields) /\
    length [VStr "selector[Person(name:felt,wallet:felt)]"; VStr "0x426f62"; VStr "0xb0"]
    = S (length fields).
Proof.
  apply (encodeData_shape Demo.ext 2 Demo.mailTypes "Person"
           (VObj [("name", VStr "Bob"); ("wallet", VStr "0xb0")]) LEGACY).
  vm_compute. reflexivity.
Defined.

Lemma reduceO_ext {A B : Type} (f g : B -> A -> outcome B) (l : list A) :
  (forall b x, x ∈ l -> f b x = g b x) -> forall init, reduceO f l init = reduceO g l init.
Proof.
  induction l as [|x l IH]; intros Hfg init; [reflexivity|].
  cbn [reduceO]. rewrite Hfg by left. destruct (g init x) as [b| |]; try reflexivity.
  rewrite !bind_Return. apply IH. intros b' y Hy. apply Hfg. right. exact Hy.
Qed.

(** X5.  [encodeData] and [getStructHash] read the message only under the
    names of the declared fields: two messages that give the same value
    under each of these names are encoded alike, whatever else they hold
    and in whatever order. *)
Theorem encodeData_declared_keys_only
    (ext : Collaborators) (fuel : nat) (types : Types) (type : string)
    (data1 data2 : value) (revision : Revision) (fields : list StarknetType) :
  targetTypeOf ext types type revision = Some fields ->
  (forall t, t ∈ fields ->
     Js.getProperty data1 (f_name t) = Js.getProperty data2 (f_name t)) ->
  encodeData ext fuel types type data1 revision
  = encodeData ext fuel types type data2 revision /\
  getStructHash ext fuel types type data1 revision
  = getStructHash ext fuel types type data2 revision.
Proof.
  intros Htarget Hsame.
  assert (Hdata : encodeData ext fuel types type data1 revision
                  = encodeData ext fuel types type data2 revision).
  { unfold encodeData, encodeDataWith. rewrite Htarget.
    destruct (getTypeHash ext fuel types type revision) as [h| |]; try reflexivity.
    rewrite !bind_Return. apply reduceO_ext.
    intros [ts vs] t Ht. unfold encodeFieldWith. rewrite (Hsame t Ht). reflexivity. }
  split; [exact Hdata|].
  unfold getStructHash, getStructHashWith. unfold encodeData in Hdata. rewrite Hdata.
  reflexivity.
Qed.

Lemma encodeData_declared_keys_only_witness :
  getStructHash Demo.ext 2 Demo.mailTypes "Person"
    (VObj [("wallet", VStr "0xb0"); ("nick", VStr "bobby"); ("name", VStr "Bob")]) LEGACY
  = getStructHash Demo.ext 2 Demo.mailTypes "Person"
      (VObj [("name", VStr "Bob"); ("wallet", VStr "0xb0")]) LEGACY.
Proof.
  apply (encodeData_declared_keys_only Demo.ext 2 Demo.mailTypes "Person" _ _ LEGACY
           [field "name" "felt"; field "wallet" "felt"]).
  - vm_compute. reflexivity.
  - intros t Ht. rewrite list_elem_of_In in Ht. simpl in Ht.
    destruct Ht as [<-|[<-|[]]]; reflexivity.
Defined.

(** ** The value encoder, continued *)

(** X6.  [assertRange] passes exactly for the values [BigInt] parses to an
    integer within the bounds, both included; it fails with the failure of
    [BigInt] for the others it cannot parse, and with the out-of-bounds
    error, which reports the parsed integer, for those outside. *)
Theorem assertRange_spec (data : value) (type : string) (min max : Z) :
  (assertRange data type (min, max) = Return tt <->
   exists v, Js.BigInt data = Return v /\ min <= v <= max) /\
  (forall e, assertRange data type (min, max) = Throw e <->
     Js.BigInt data = Throw e \/
     exists v, Js.BigInt data = Return v /\ (v < min \/ max < v) /\
               e = OutOfBounds v type min max).
Proof.
  unfold assertRange, assert. cbn [fst snd].
  assert (Hbig : Js.BigInt data <> OutOfFuel).
  { unfold Js.BigInt. destruct data; try discriminate;
      destruct (Js.stringToBigInt _); discriminate. }
  destruct (Js.BigInt data) as [v|e'|]; [| |congruence].
  - rewrite bind_Return.
    destruct ((min <=? v) && (v <=? max)) eqn:C.
    + apply andb_true_iff in C. rewrite !Z.leb_le in C. split.
      * split; [eauto|reflexivity].
      * intros e. split; [discriminate|].
        intros [H|(w & [= <-] & Hout & _)]; [discriminate | lia].
    + apply andb_false_iff in C. rewrite !Z.leb_gt in C. split.
      * split; [discriminate|]. intros (w & [= <-] & Hin). lia.
      * intros e. split.
        -- intros [= <-]. right. exists v. repeat split. lia.
        -- intros [H|(w & [= <-] & _ & ->)]; [discriminate | reflexivity].
  - split.
    + split; [discriminate|]. intros (v & H & _). discriminate H.
    + intros e. split.
      * intros [= <-]. left. reflexivity.
      * intros [[= <-]|(v & H & _)]; [reflexivity | discriminate H].
Qed.

Lemma assertRange_spec_witness :
  assertRange (VStr "340282366920938463463374607431768211455") "u128" RANGE_U128 = Return tt /\
  assertRange (VStr "340282366920938463463374607431768211456") "u128" RANGE_U128
  = Throw (OutOfBounds (2 ^ 128) "u128" 0 (2 ^ 128 - 1)).
Proof.
  destruct (assertRange_spec (VStr "340282366920938463463374607431768211455") "u128"
              0 (2 ^ 128 - 1)) as [Hin _].
  destruct (assertRange_spec (VStr "340282366920938463463374607431768211456") "u128"
              0 (2 ^ 128 - 1)) as [_ Hout].
  split.
  - apply Hin. exists (2 ^ 128 - 1). split; [reflexivity | lia].
  - apply Hout. right. exists (2 ^ 128). split; [reflexivity|]. split; [right; lia | reflexivity].
Defined.

(** What follows a range check on the value as given. *)
Lemma ranged_outcome {A : Type} (data : value) (type : string) (min max : Z)
    (k : outcome A) (encoded : outcome A) :
  encoded = (_ ← assertRange data type (min, max); k) ->
  (forall e, Js.BigInt data = Throw e -> encoded = Throw e) /\
  (forall v, Js.BigInt data = Return v ->
     ((v < min) \/ (max < v) -> encoded = Throw (OutOfBounds v type min max)) /\
     ((min <= v) /\ (v <= max) -> encoded = k)).
Proof.
  intros ->. unfold assertRange, assert. cbn [fst snd]. split.
  - intros e ->. reflexivity.
  - intros v ->. rewrite bind_Return. split.
    + intros Hout.
      assert ((min <=? v) && (v <=? max) = false) as ->; [|reflexivity].
      apply andb_false_iff. rewrite !Z.leb_gt. lia.
    + intros [H1 H2].
      assert ((min <=? v) && (v <=? max) = true) as ->; [|reflexivity].
      apply andb_true_iff. rewrite !Z.leb_le. auto.
Qed.

(** X7.  Under the active revision a [u128] or [timestamp] value must parse
    to an integer of [0, 2^128 - 1]: [2^128] and [-1] are out of bounds,
    [2^128 - 1] and [0] are not.  A value within bounds is encoded as the
    hex of the value as given. *)
Theorem encodeValue_u128_active
    (ext : Collaborators) (fuel : nat) (types : Types) (type : string) (data : value)
    (ctx : Context) :
  type = "u128" \/ type = "timestamp" ->
  hasType types type = false ->
  let encoded := encodeValue ext (S fuel) types type data ctx ACTIVE in
  (forall e, Js.BigInt data = Throw e -> encoded = Throw e) /\
  (forall v, Js.BigInt data = Return v ->
     ((v < 0) \/ (2 ^ 128 - 1 < v) ->
      encoded = Throw (OutOfBounds v type 0 (2 ^ 128 - 1))) /\
     ((0 <= v) /\ (v <= 2 ^ 128 - 1) ->
      encoded = (h ← getHex ext data; Return (type, VStr h)))).
Proof.
  intros Htype Hdeclared encoded. apply ranged_outcome. unfold encoded.
  destruct Htype as [-> | ->]; enter_switch Hdeclared; reflexivity.
Qed.

Lemma encodeValue_u128_active_witness :
  encodeValue Demo.ext 1 ∅ "u128" (VStr "340282366920938463463374607431768211456")
    noContext ACTIVE
  = Throw (OutOfBounds (2 ^ 128) "u128" 0 (2 ^ 128 - 1)) /\
  encodeValue Demo.ext 1 ∅ "u128" (VStr "340282366920938463463374607431768211455")
    noContext ACTIVE
  = Return ("u128", VStr "0xffffffffffffffffffffffffffffffff").
Proof.
  split.
  - destruct (encodeValue_u128_active Demo.ext 0 ∅ "u128"
                (VStr "340282366920938463463374607431768211456") noContext
                (or_introl eq_refl) (hasType_empty "u128" eq_refl)) as [_ H].
    destruct (H (2 ^ 128) eq_refl) as [Hout _]. apply Hout. right. lia.
  - destruct (encodeValue_u128_active Demo.ext 0 ∅ "u128"
                (VStr "340282366920938463463374607431768211455") noContext
                (or_introl eq_refl) (hasType_empty "u128" eq_refl)) as [_ H].
    destruct (H (2 ^ 128 - 1) eq_refl) as [_ Hin]. rewrite Hin by lia.
    vm_compute. reflexivity.
Defined.

(** X8.  Under the active revision a [ClassHash] or [ContractAddress] value
    must parse to an integer of [0, PRIME - 1]; within bounds it is encoded
    as the hex of the value as given. *)
Theorem encodeValue_address_active
    (ext : Collaborators) (fuel : nat) (types : Types) (type : string) (data : value)
    (ctx : Context) :
  type = "ClassHash" \/ type = "ContractAddress" ->
  hasType types type = false ->
  let encoded := encodeValue ext (S fuel) types type data ctx ACTIVE in
  (forall e, Js.BigInt data = Throw e -> encoded = Throw e) /\
  (forall v, Js.BigInt data = Return v ->
     ((v < 0) \/ (PRIME ext - 1 < v) ->
      encoded = Throw (OutOfBounds v type 0 (PRIME ext - 1))) /\
     ((0 <= v) /\ (v <= PRIME ext - 1) ->
      encoded = (h ← getHex ext data; Return (type, VStr h)))).
Proof.
  intros Htype Hdeclared encoded. apply ranged_outcome. unfold encoded.
  destruct Htype as [-> | ->]; enter_switch Hdeclared; reflexivity.
Qed.

Lemma encodeValue_address_active_witness :
  encodeValue Demo.ext 1 ∅ "ContractAddress" (VBigInt (PRIME Demo.ext)) noContext ACTIVE
  = Throw (OutOfBounds (PRIME Demo.ext) "ContractAddress" 0 (PRIME Demo.ext - 1)) /\
  encodeValue Demo.ext 1 ∅ "ContractAddress" (VStr "0xabc") noContext ACTIVE
  = Return ("ContractAddress", VStr "0xabc").
Proof.
  split.
  - destruct (encodeValue_address_active Demo.ext 0 ∅ "ContractAddress"
                (VBigInt (PRIME Demo.ext)) noContext
                (or_intror eq_refl) (hasType_empty "ContractAddress" eq_refl)) as [_ H].
    destruct (H _ eq_refl) as [Hout _]. apply Hout. right. lia.
  - destruct (encodeValue_address_active Demo.ext 0 ∅ "ContractAddress"
                (VStr "0xabc") noContext
                (or_intror eq_refl) (hasType_empty "ContractAddress" eq_refl)) as [_ H].
    destruct (H 2748 eq_refl) as [_ Hin]. rewrite Hin.
    + vm_compute. reflexivity.
    + split; [lia|]. vm_compute. discriminate.
Defined.

(** X9.  Under the active revision a [felt] or [shortstring] value is first
    turned into hex by [getHex] (so a text is packed as a short string),
    and it is that hex which must parse to an integer of [0, PRIME - 1];
    the answer is then the same hex. *)
Theorem encodeValue_felt_active
    (ext : Collaborators) (fuel : nat) (types : Types) (type : string) (data : value)
    (ctx : Context) :
  type = "felt" \/ type = "shortstring" ->
  hasType types type = false ->
  let encoded := encodeValue ext (S fuel) types type data ctx ACTIVE in
  (forall e, getHex ext data = Throw e -> encoded = Throw e) /\
  (forall h, getHex ext data = Return h ->
     (forall e, Js.BigInt (VStr h) = Throw e -> encoded = Throw e) /\
     (forall v, Js.BigInt (VStr h) = Return v ->
        ((v < 0) \/ (PRIME ext - 1 < v) ->
         encoded = Throw (OutOfBounds v type 0 (PRIME ext - 1))) /\
        ((0 <= v) /\ (v <= PRIME ext - 1) -> encoded = Return (type, VStr h)))).
Proof.
  intros Htype Hdeclared encoded.
  assert (Hencoded : encoded
                     = (_ ← (h ← getHex ext data; assertRange (VStr h) type (0, PRIME ext - 1));
                        h ← getHex ext data; Return (type, VStr h))).
  { unfold encoded. destruct Htype as [-> | ->]; enter_switch Hdeclared; reflexivity. }
  split.
  - intros e He. rewrite Hencoded, He. reflexivity.
  - intros h Hh.
    apply (ranged_outcome (VStr h) type 0 (PRIME ext - 1) (Return (type, VStr h))).
    rewrite Hencoded, Hh, !bind_Return.
    destruct (assertRange (VStr h) type (0, PRIME ext - 1)) as [[]| |]; reflexivity.
Qed.

Lemma encodeValue_felt_active_witness :
  encodeValue Demo.ext 1 ∅ "felt" (VStr "Hello") noContext ACTIVE
  = Return ("felt", VStr "0x48656c6c6f") /\
  encodeValue Demo.ext 1 ∅ "felt" (VBigInt (PRIME Demo.ext)) noContext ACTIVE
  = Throw (OutOfBounds (PRIME Demo.ext) "felt" 0 (PRIME Demo.ext - 1)).
Proof.
  split.
  - destruct (encodeValue_felt_active Demo.ext 0 ∅ "felt" (VStr "Hello") noContext
                (or_introl eq_refl) (hasType_empty "felt" eq_refl)) as [_ H].
    destruct (H "0x48656c6c6f" ltac:(vm_compute; reflexivity)) as [_ Hv].
    destruct (Hv 310939249775 ltac:(vm_compute; reflexivity)) as [_ Hin].
    apply Hin. split; [lia|]. vm_compute. discriminate.
  - destruct (encodeValue_felt_active Demo.ext 0 ∅ "felt" (VBigInt (PRIME Demo.ext))
                noContext (or_introl eq_refl) (hasType_empty "felt" eq_refl)) as [_ H].
    destruct (H "0x800000000000011000000000000000000000000000000000000000000000001"
                ltac:(vm_compute; reflexivity)) as [_ Hv].
    destruct (Hv (PRIME Demo.ext) ltac:(vm_compute; reflexivity)) as [Hout _].
    apply Hout. right. lia.
Defined.



(** X11.  The legacy revision checks none of the primitive tags: [enum],
    [string], [i128], [timestamp], [u128], [felt], [shortstring],
    [ClassHash], [ContractAddress] and [bool], when not declared as types,
    are all encoded as the tag with the hex of the value as [getHex] makes
    it, without a range or type test. *)
Theorem encodeValue_legacy_opaque
    (ext : Collaborators) (fuel : nat) (types : Types) (type : string) (data : value)
    (ctx : Context) :
  In type legacyOpaqueTags ->
  hasType types type = false ->
  encodeValue ext (S fuel) types type data ctx LEGACY
  = (h ← getHex ext data; Return (type, VStr h)).
Proof.
  intros Hin Hdeclared. unfold legacyOpaqueTags in Hin. simpl in Hin.
  repeat (destruct Hin as [<-|Hin]; [enter_switch Hdeclared; reflexivity|]).
  contradiction.
Qed.

Lemma encodeValue_legacy_opaque_witness :
  encodeValue Demo.ext 1 ∅ "u128" (VStr "340282366920938463463374607431768211456")
    noContext LEGACY
  = Return ("u128", VStr "0x100000000000000000000000000000000") /\
  encodeValue Demo.ext 1 ∅ "bool" (VNum 1) noContext LEGACY = Return ("bool", VStr "0x1").
Proof.
  split.
  - rewrite (encodeValue_legacy_opaque Demo.ext 0 ∅ "u128" _ noContext)
      by (vm_compute; tauto).
    vm_compute. reflexivity.
  - rewrite (encodeValue_legacy_opaque Demo.ext 0 ∅ "bool" _ noContext)
      by (vm_compute; tauto).
    vm_compute. reflexivity.
Defined.

Lemma presetTypes_names name :
  is_Some (presetTypesTable !! name) ->
  name = "u256" \/ name = "TokenAmount" \/ name = "NftId".
Proof.
  intros [fields H]. unfold presetTypesTable in H.
  apply lookup_insert_Some in H. destruct H as [[<- _]|[_ H]]; [auto|].
  apply lookup_insert_Some in H. destruct H as [[<- _]|[_ H]]; [auto|].
  apply lookup_singleton_Some in H. destruct H as [<- _]. auto.
Qed.

Lemma presetTypes_no_array ext revision type :
  JsString.endsWith type "*"%char = true ->
  hasType (Configuration.presetTypes (revisionConfiguration ext revision)) type = false.
Proof.
  intros Hstar.
  assert (Hown : Js.inheritedName type = false).
  { destruct (Js.inheritedName type) eqn:E; [|reflexivity].
    apply inheritedName_plain in E. destruct E as (_ & _ & E). congruence. }
  destruct revision; [|apply hasType_empty, Hown].
  destruct (hasType _ type) eqn:E; [|reflexivity].
  apply (hasType_own _ _ Hown), presetTypes_names in E.
  destruct E as [-> | [-> | ->]]; discriminate Hstar.
Qed.

(** X12.  A [selector] value that is already hex comes back as it is, one
    that is not goes through the name hash; the answer is tagged [felt]
    under both revisions. *)
Theorem encodeValue_selector
    (ext : Collaborators) (fuel : nat) (types : Types) (data : value) (ctx : Context)
    (revision : Revision) :
  hasType types "selector" = false ->
  let encoded := encodeValue ext (S fuel) types "selector" data ctx revision in
  (isHex ext data = true -> encoded = Return ("felt", data)) /\
  (isHex ext data = false ->
   encoded = (s ← call "getSelectorFromName" (getSelectorFromName ext data);
              Return ("felt", VStr s))).
Proof.
  intros Hdeclared encoded. unfold encoded.
  destruct revision; enter_switch Hdeclared; unfold prepareSelector; split; intros ->;
    try reflexivity;
    destruct (getSelectorFromName ext data); reflexivity.
Qed.

Lemma encodeValue_selector_witness :
  encodeValue Demo.ext 1 ∅ "selector" (VStr "0xabc") noContext ACTIVE
  = Return ("felt", VStr "0xabc") /\
  encodeValue Demo.ext 1 ∅ "selector" (VStr "transfer") noContext ACTIVE
  = Return ("felt", VStr "selector[transfer]").
Proof.
  destruct (encodeValue_selector Demo.ext 0 ∅ (VStr "0xabc") noContext ACTIVE
              (hasType_empty "selector" eq_refl)) as [Hhex _].
  destruct (encodeValue_selector Demo.ext 0 ∅ (VStr "transfer") noContext ACTIVE
              (hasType_empty "selector" eq_refl)) as [_ Hname].
  split; [apply Hhex; reflexivity|]. rewrite Hname by reflexivity. reflexivity.
Defined.

(** X13.  Under the active revision a [string] value is hashed as a byte
    array: the number of data words, the data words, the pending word and
    its length, in that order, which makes three elements more than there
    are data words. *)
Theorem encodeValue_string_active
    (ext : Collaborators) (fuel : nat) (types : Types) (data : value) (ctx : Context)
    (byteArray : ByteArray.t) :
  hasType types "string" = false ->
  byteArrayFromString ext data = Some byteArray ->
  let elements :=
    (VNum (Z.of_nat (length (ByteArray.data byteArray)))
       :: ByteArray.data byteArray
       ++ [ByteArray.pending_word byteArray; VNum (ByteArray.pending_word_len byteArray)])%list in
  encodeValue ext (S fuel) types "string" data ctx ACTIVE
  = (h ← call "hashMethod" (computePoseidonHashOnElements ext elements);
     Return ("string", VStr h)) /\
  length elements = (length (ByteArray.data byteArray) + 3)%nat.
Proof.
  intros Hdeclared Hbytes elements. split.
  - enter_switch Hdeclared. rewrite Hbytes. reflexivity.
  - unfold elements. cbn [length]. rewrite length_app. cbn [length]. lia.
Qed.

Lemma encodeValue_string_active_witness :
  encodeValue Demo.ext 1 ∅ "string" (VStr "Hello") noContext ACTIVE
  = Return ("string", VStr "poseidon[0,0x48656c6c6f,5]").
Proof.
  destruct (encodeValue_string_active Demo.ext 0 ∅ (VStr "Hello") noContext
              (ByteArray.mk [] (VStr "0x48656c6c6f") 5) (hasType_empty "string" eq_refl) eq_refl)
    as [-> _].
  reflexivity.
Defined.

(** X14.  An array type, one that ends with the marker and is not itself
    declared, takes an array: each element is encoded against the type
    without its last marker, with no context, and the digests are hashed
    with the revision's element hash, the empty array included.  Any other
    value, an object or a text as well, is a [TypeError]. *)
Theorem encodeValue_array
    (ext : Collaborators) (fuel : nat) (types : Types) (type : string) (data : value)
    (ctx : Context) (revision : Revision) :
  JsString.endsWith type "*"%char = true ->
  hasType types type = false ->
  let encoded := encodeValue ext (S fuel) types type data ctx revision in
  let hash := Configuration.hashMethod (revisionConfiguration ext revision) in
  (forall entries, data = VArr entries ->
     encoded
     = (hashes ← mapM (fun entry =>
                         snd <$> encodeValue ext fuel types (JsString.dropLast type) entry
                                   noContext revision) entries;
        h ← call "hashMethod" (hash hashes);
        Return (type, VStr h))) /\
  (data = VArr [] -> encoded = (h ← call "hashMethod" (hash []); Return (type, VStr h))) /\
  ((forall entries, data <> VArr entries) -> encoded = Throw TypeError).
Proof.
  intros Hstar Hdeclared encoded hash.
  assert (Hencoded : encoded
                     = (entries ← Js.asArray data;
                        hashes ← mapM (fun entry =>
                                         snd <$> encodeValue ext fuel types
                                                   (JsString.dropLast type) entry
                                                   noContext revision) entries;
                        h ← call "hashMethod" (hash hashes);
                        Return (type, VStr h))).
  { unfold encoded. cbn [encodeValue].
    rewrite Hdeclared, (presetTypes_no_array ext revision type Hstar), Hstar. reflexivity. }
  rewrite Hencoded. split; [|split].
  - intros entries ->. reflexivity.
  - intros ->. reflexivity.
  - intros Hnot. destruct data; try reflexivity. exfalso. eapply Hnot. reflexivity.
Qed.

Lemma encodeValue_array_witness :
  encodeValue Demo.ext 2 ∅ "felt*" (VArr [VNum 1; VNum 2]) noContext LEGACY
  = Return ("felt*", VStr "pedersen[0x1,0x2]") /\
  encodeValue Demo.ext 2 ∅ "felt*" (VArr []) noContext LEGACY
  = Return ("felt*", VStr "pedersen[]") /\
  encodeValue Demo.ext 2 ∅ "felt*" (VStr "12") noContext LEGACY = Throw TypeError.
Proof.
  destruct (encodeValue_array Demo.ext 1 ∅ "felt*" (VArr [VNum 1; VNum 2]) noContext LEGACY
              eq_refl (hasType_empty "felt*" eq_refl)) as (H1 & _ & _).
  destruct (encodeValue_array Demo.ext 1 ∅ "felt*" (VArr []) noContext LEGACY
              eq_refl (hasType_empty "felt*" eq_refl)) as (_ & H2 & _).
  destruct (encodeValue_array Demo.ext 1 ∅ "felt*" (VStr "12") noContext LEGACY
              eq_refl (hasType_empty "felt*" eq_refl)) as (_ & _ & H3).
  split; [|split].
  - rewrite (H1 _ eq_refl). vm_compute. reflexivity.
  - rewrite (H2 eq_refl). reflexivity.
  - apply H3. discriminate.
Defined.

(** X15.  A type the document declares wins over everything else in
    [encodeValue]: whatever its name (that of a primitive, of a preset, one
    ending with the array marker), the value is hashed as a struct of that
    type, the context is not looked at and no primitive check is made. *)
Theorem encodeValue_declared_type
    (ext : Collaborators) (fuel : nat) (types : Types) (type : string) (data : value)
    (ctx : Context) (revision : Revision) :
  is_Some (types !! type) ->
  encodeValue ext (S fuel) types type data ctx revision
  = (h ← getStructHash ext fuel types type data revision; Return (type, VStr h)).
Proof.
  intros Hdeclared. apply hasType_declared in Hdeclared.
  cbn [encodeValue]. rewrite Hdeclared. reflexivity.
Qed.

Lemma encodeValue_declared_type_witness :
  encodeValue Demo.ext 3 ownU128Types "u128" (VObj [("limb", VStr "0x7")])
    (mkContext (Some "Any") (Some "thing")) ACTIVE
  = Return ("u128",
            VStr ("poseidon[selector[" ++ quoted "u128" ++ "(" ++ quoted "limb" ++ ":"
                  ++ quoted "felt" ++ ")],0x7]")).
Proof.
  rewrite (encodeValue_declared_type Demo.ext 2 ownU128Types "u128")
    by (vm_compute; eauto).
  vm_compute. reflexivity.
Defined.

(** X16.  Under the active revision a value of a preset type the document
    does not declare is hashed against the preset library alone: the
    document's types play no part in it, nor does the context. *)
Theorem encodeValue_preset_type
    (ext : Collaborators) (fuel : nat) (types types' : Types) (name : string)
    (data : value) (ctx ctx' : Context) :
  is_Some (presetTypesTable !! name) ->
  types !! name = None -> types' !! name = None ->
  encodeValue ext (S fuel) types name data ctx ACTIVE
  = (h ← getStructHash ext fuel presetTypesTable name data ACTIVE; Return (name, VStr h)) /\
  encodeValue ext (S fuel) types name data ctx ACTIVE
  = encodeValue ext (S fuel) types' name data ctx' ACTIVE.
Proof.
  intros Hpreset Hnone Hnone'.
  pose proof (presetTypes_own name Hpreset) as Hown.
  apply hasType_declared in Hpreset.
  apply (hasType_own_false _ _ Hown) in Hnone, Hnone'.
  assert (Hone : forall tys c, hasType tys name = false ->
            encodeValue ext (S fuel) tys name data c ACTIVE
            = (h ← getStructHash ext fuel presetTypesTable name data ACTIVE;
               Return (name, VStr h))).
  { intros tys c H. cbn [encodeValue]. rewrite H.
    change (Configuration.presetTypes (revisionConfiguration ext ACTIVE))
      with presetTypesTable.
    rewrite Hpreset. reflexivity. }
  split; [apply Hone, Hnone|]. rewrite !Hone by assumption. reflexivity.
Qed.

Lemma encodeValue_preset_type_witness :
  encodeValue Demo.ext 3 ownU128Types "u256"
    (VObj [("low", VStr "1"); ("high", VStr "2")]) noContext ACTIVE
  = encodeValue Demo.ext 3 ∅ "u256"
      (VObj [("low", VStr "1"); ("high", VStr "2")]) noContext ACTIVE.
Proof.
  apply (encodeValue_preset_type Demo.ext 2 ownU128Types ∅ "u256");
    vm_compute; eauto.
Defined.
Lemma findField_Some key : forall fields k i t,
  findField key fields k = Some (i, t) ->
  (k <= i)%nat /\ fields !! (i - k)%nat = Some t /\ f_name t = key /\
  (forall j u, (j < i - k)%nat -> fields !! j = Some u -> f_name u <> key).
Proof.
  induction fields as [|x fields IH]; intros k i t; cbn [findField]; [discriminate|].
  destruct (String.eqb (f_name x) key) eqn:E.
  - intros [= <- <-]. apply String.eqb_eq in E. rewrite Nat.sub_diag.
    repeat split; [lia | exact E | intros j u Hj; lia].
  - intros H. destruct (IH _ _ _ H) as (Hle & Hat & Hname & Hbefore).
    apply String.eqb_neq in E.
    replace (i - k)%nat with (S (i - S k)) by lia.
    repeat split; [lia | exact Hat | exact Hname |].
    intros [|j] u Hj Hu.
    + injection Hu as <-. exact E.
    + apply (Hbefore j u); [lia | exact Hu].
Qed.

(** X17.  Under the active revision an [enum] value is read from the first
    entry of the object: its key names the variant, looked up in the type
    the [contains] of the parent's first field names.  An unknown variant
    is a [TypeError].  A known one is hashed as the variant's position
    among the declared variants (the first of that name, counted from 0)
    followed by the encoded elements of its payload; a variant of type [()]
    is hashed as its position followed by the empty string, whatever the
    payload.  The key of the context and the other entries have no part. *)
Theorem encodeValue_enum_active
    (ext : Collaborators) (fuel : nat) (types : Types) (data : value) (ctx : Context)
    (variantKey : string) (variantData : value) (others : list (string * value))
    (first : StarknetType) (otherFields enumType : list StarknetType) :
  hasType types "enum" = false ->
  Js.entries data = Return ((variantKey, variantData) :: others) ->
  types !! Js.keyOf (parent ctx) = Some (first :: otherFields) ->
  types !! Js.keyOf (f_contains first) = Some enumType ->
  let encoded := encodeValue ext (S fuel) types "enum" data ctx ACTIVE in
  (findField variantKey enumType O = None -> encoded = Throw TypeError) /\
  (forall variantIndex variantType,
     findField variantKey enumType O = Some (variantIndex, variantType) ->
     enumType !! variantIndex = Some variantType /\
     f_name variantType = variantKey /\
     (forall j t, (j < variantIndex)%nat -> enumType !! j = Some t ->
                  f_name t <> variantKey) /\
     encoded
     = (encodedSubtypes ←
          mapIndexedM
            (fun index subtype =>
               if String.eqb subtype "" then Return (VStr subtype)
               else
                 subtypeData ← Js.getProperty variantData (Js.decimal (Z.of_nat index));
                 snd <$> encodeValue ext fuel types subtype subtypeData noContext ACTIVE)
            O (JsString.split ","%char (JsString.slice1m1 (f_type variantType)));
        h ← call "hashMethod"
              (computePoseidonHashOnElements ext
                 (VNum (Z.of_nat variantIndex) :: encodedSubtypes));
        Return ("enum", VStr h)) /\
     (f_type variantType = "()" ->
      encoded
      = (h ← call "hashMethod"
               (computePoseidonHashOnElements ext [VNum (Z.of_nat variantIndex); VStr ""]);
         Return ("enum", VStr h)))).
Proof.
  intros Hdeclared Hentries Hparent Henum encoded.
  assert (Hencoded : encoded
            = match findField variantKey enumType O with
              | None => Throw TypeError
              | Some (variantIndex, variantType) =>
                  encodedSubtypes ←
                    mapIndexedM
                      (fun index subtype =>
                         if String.eqb subtype "" then Return (VStr subtype)
                         else
                           subtypeData ← Js.getProperty variantData
                                           (Js.decimal (Z.of_nat index));
                           snd <$> encodeValue ext fuel types subtype subtypeData
                                     noContext ACTIVE)
                      O (JsString.split ","%char (JsString.slice1m1 (f_type variantType)));
                  h ← call "hashMethod"
                        (computePoseidonHashOnElements ext
                           (VNum (Z.of_nat variantIndex) :: encodedSubtypes));
                  Return ("enum", VStr h)
              end).
  { unfold encoded. enter_switch Hdeclared.
    rewrite Hentries, bind_Return, Hparent, Henum. reflexivity. }
  rewrite Hencoded. split.
  - intros ->. reflexivity.
  - intros variantIndex variantType Hfind. rewrite Hfind.
    destruct (findField_Some _ _ _ _ _ Hfind) as (_ & Hat & Hname & Hbefore).
    rewrite Nat.sub_0_r in Hat, Hbefore.
    split; [exact Hat|]. split; [exact Hname|]. split; [exact Hbefore|].
    split; [reflexivity|].
    intros ->. reflexivity.
Qed.

Lemma encodeValue_enum_active_witness :
  encodeValue Demo.ext 3 Demo.enumTypes "enum"
    (VObj [("Variant 2", VArr [VNum 5; VArr [VNum 1; VNum 2]]); ("Variant 1", VNull)])
    (mkContext (Some "Example") (Some "other")) ACTIVE
  = Return ("enum", VStr "poseidon[1,0x5,poseidon[0x1,0x2]]") /\
  encodeValue Demo.ext 3 Demo.enumTypes "enum" (VObj [("Variant 1", VStr "ignored")])
    (mkContext (Some "Example") (Some "someEnum")) ACTIVE
  = Return ("enum", VStr "poseidon[0,]") /\
  encodeValue Demo.ext 3 Demo.enumTypes "enum" (VObj [("Variant 3", VArr [])])
    (mkContext (Some "Example") (Some "someEnum")) ACTIVE
  = Throw TypeError.
Proof.
  assert (Hdeclared : hasType Demo.enumTypes "enum" = false) by (vm_compute; reflexivity).
  assert (Hparent : Demo.enumTypes !! "Example"
                    = Some [mkType "someEnum" "enum" (Some "MyEnum")])
    by (vm_compute; reflexivity).
  assert (Henum : Demo.enumTypes !! "MyEnum"
                  = Some [field "Variant 1" "()"; field "Variant 2" "(u128,u128*)"])
    by (vm_compute; reflexivity).
  split; [|split].
  - destruct (encodeValue_enum_active Demo.ext 2 Demo.enumTypes
                (VObj [("Variant 2", VArr [VNum 5; VArr [VNum 1; VNum 2]]);
                       ("Variant 1", VNull)])
                (mkContext (Some "Example") (Some "other")) "Variant 2" _ _ _ _ _
                Hdeclared eq_refl Hparent Henum) as [_ H].
    destruct (H 1%nat (field "Variant 2" "(u128,u128*)") eq_refl) as (_ & _ & _ & -> & _).
    vm_compute. reflexivity.
  - destruct (encodeValue_enum_active Demo.ext 2 Demo.enumTypes
                (VObj [("Variant 1", VStr "ignored")])
                (mkContext (Some "Example") (Some "someEnum")) "Variant 1" _ _ _ _ _
                Hdeclared eq_refl Hparent Henum) as [_ H].
    destruct (H 0%nat (field "Variant 1" "()") eq_refl) as (_ & _ & _ & _ & Hunit).
    rewrite (Hunit eq_refl). reflexivity.
  - destruct (encodeValue_enum_active Demo.ext 2 Demo.enumTypes
                (VObj [("Variant 3", VArr [])])
                (mkContext (Some "Example") (Some "someEnum")) "Variant 3" _ _ _ _ _
                Hdeclared eq_refl Hparent Henum) as [H _].
    apply H. reflexivity.
Defined.

(** X18.  A [merkletree] value met without a parent or without a key in the
    context (an element of an array or of a tuple, a field of empty name)
    takes [raw] for leaf type.  Under the active revision, where [raw] is
    no supported tag, such a tree with a leaf in it is refused as of
    unsupported type unless the document declares a type [raw]. *)
Theorem encodeValue_merkletree_no_context
    (ext : Collaborators) (fuel : nat) (types : Types) (data : value) (ctx : Context)
    (revision : Revision) :
  hasType types "merkletree" = false ->
  parent ctx = None \/ parent ctx = Some "" \/ key ctx = None \/ key ctx = Some "" ->
  encodeValue ext (S (S fuel)) types "merkletree" data ctx revision
  = (structs ← Js.asArray data;
     structHashes ← mapM (fun struct =>
                            snd <$> encodeValue ext (S fuel) types "raw" struct
                                      noContext revision) structs;
     root ← call "MerkleTree"
              (merkleRoot ext structHashes
                 (Configuration.hashMerkleMethod (revisionConfiguration ext revision)));
     Return ("felt", VStr root)) /\
  (revision = ACTIVE -> hasType types "raw" = false ->
   forall leaf leaves, data = VArr (leaf :: leaves) ->
     encodeValue ext (S (S fuel)) types "merkletree" data ctx revision
     = Throw (UnsupportedType "raw")).
Proof.
  intros Hdeclared Hctx.
  assert (Hraw : getMerkleTreeType types ctx = Return "raw").
  { unfold getMerkleTreeType.
    destruct (parent ctx) as [[|a p]|], (key ctx) as [[|b k]|]; try reflexivity.
    destruct Hctx as [H|[H|[H|H]]]; discriminate H. }
  assert (Hencoded :
            encodeValue ext (S (S fuel)) types "merkletree" data ctx revision
            = (structs ← Js.asArray data;
               structHashes ← mapM (fun struct =>
                                      snd <$> encodeValue ext (S fuel) types "raw" struct
                                                noContext revision) structs;
               root ← call "MerkleTree"
                        (merkleRoot ext structHashes
                           (Configuration.hashMerkleMethod
                              (revisionConfiguration ext revision)));
               Return ("felt", VStr root))).
  { destruct revision; enter_switch Hdeclared; rewrite Hraw; reflexivity. }
  split; [exact Hencoded|].
  intros -> Hrawtype leaf leaves ->. rewrite Hencoded.
  cbn [Js.asArray]. rewrite bind_Return. unfold mapM. cbn [mapIndexedM].
  assert (encodeValue ext (S fuel) types "raw" leaf noContext ACTIVE
          = Throw (UnsupportedType "raw")) as ->; [|reflexivity].
  enter_switch Hrawtype. reflexivity.
Qed.

Lemma encodeValue_merkletree_no_context_witness :
  encodeValue Demo.ext 3 sessionTypes "merkletree" policies noContext ACTIVE
  = Throw (UnsupportedType "raw") /\
  encodeValue Demo.ext 3 sessionTypes "merkletree" (VArr []) noContext ACTIVE
  = Return ("felt", VStr "0x0").
Proof.
  destruct (encodeValue_merkletree_no_context Demo.ext 1 sessionTypes policies noContext
              ACTIVE ltac:(vm_compute; reflexivity) (or_introl eq_refl)) as [_ H].
  destruct (encodeValue_merkletree_no_context Demo.ext 1 sessionTypes (VArr []) noContext
              ACTIVE ltac:(vm_compute; reflexivity) (or_introl eq_refl)) as [H' _].
  split.
  - eapply H; [reflexivity | vm_compute; reflexivity | reflexivity].
  - rewrite H'. reflexivity.
Defined.



(** X21.  A document of the legacy revision is never refused for an
    unsupported type: [getMessageHash] does not throw that error for it,
    whatever types its fields name. *)
Theorem getMessageHash_legacy_never_unsupported
    (ext : Collaborators) (fuel : nat) (typedData : TypedData) (account : value)
    (types : Types) :
  td_types typedData = Some types ->
  identifyRevision ext types (td_domain typedData) = Some LEGACY ->
  forall type, getMessageHash ext fuel typedData account <> Throw (UnsupportedType type).
Proof.
  intros Htypes Hrevision type.
  assert (He : topLevelError (UnsupportedType type)) by (right; eauto).
  assert (Hstruct : forall name data,
            never (UnsupportedType type) (getStructHash ext fuel types name data LEGACY)).
  { intros name data. apply getStructHashWith_never; [exact He|].
    intros. apply encodeValue_legacy_never_unsupported. }
  change (never (UnsupportedType type) (getMessageHash ext fuel typedData account)).
  unfold getMessageHash. rewrite Htypes, Hrevision.
  repeat first [apply Hstruct | never_step].
Qed.

Lemma getMessageHash_legacy_never_unsupported_witness :
  getMessageHash Demo.ext 4 mailDocument (VStr "0xacc") <> Throw (UnsupportedType "Mail").
Proof.
  apply (getMessageHash_legacy_never_unsupported Demo.ext 4 mailDocument (VStr "0xacc")
           Demo.mailTypes eq_refl).
  vm_compute. reflexivity.
Defined.
Lemma prepareSelector_Return ext data x :
  prepareSelector ext data = Return x -> x = data \/ exists s, x = VStr s.
Proof.
  unfold prepareSelector. destruct (isHex ext data); [intros [= <-]; auto|].
  destruct (getSelectorFromName ext data); [|discriminate].
  intros [= <-]. eauto.
Qed.

(** Follow an outcome that is known to be a [Return] back through the
    computation that made it. *)
Ltac outcome_inv H :=
  repeat (cbv beta in H;
          lazymatch type of H with
          | Return _ = Return _ => injection H as ? ?
          | Throw _ = Return _ => discriminate H
          | OutOfFuel = Return _ => discriminate H
          | (if ?b then _ else _) = Return _ => destruct b eqn:?
          | mbind _ _ = Return _ =>
              apply bind_Return_inv in H; destruct H as (? & ? & H)
          | scalar _ _ _ = Return _ => unfold scalar in H
          | (match ?x with _ => _ end) = Return _ => destruct x eqn:?
          end).

(** X19.  The tag [encodeValue] returns with a value is the type it was
    asked to encode, except that a Merkle tree and a selector come back
    tagged [felt]; and the value returned is always a text (the hex or the
    digest), except for a selector that is already hex, which comes back as
    it was given. *)
Theorem encodeValue_result_tag
    (ext : Collaborators) (fuel : nat) (types : Types) (type : string) (data : value)
    (ctx : Context) (revision : Revision) (t : string) (v : value) :
  encodeValue ext fuel types type data ctx revision = Return (t, v) ->
  (t = type \/ (t = "felt" /\ (type = "merkletree" \/ type = "selector"))) /\
  ((exists s, v = VStr s) \/ (type = "selector" /\ v = data)).
Proof.
  destruct fuel as [|fuel]; [discriminate|].
  cbn [encodeValue]. intros H. outcome_inv H;
    repeat match goal with
           | E : String.eqb _ _ = true |- _ => apply String.eqb_eq in E
           | E : prepareSelector _ _ = Return _ |- _ =>
               apply prepareSelector_Return in E; destruct E as [->|[? ->]]
           end;
    subst; split; eauto 6.
Qed.

Lemma encodeValue_result_tag_witness :
  let digest :=
    "pedersen["
    ++ "pedersen[selector[Policy(contractAddress:felt,selector:selector)],"
    ++ "0x1,selector[transfer]],"
    ++ "pedersen[selector[Policy(contractAddress:felt,selector:selector)],"
    ++ "0x2,0xabc]]" in
  ("felt" = "merkletree" \/ ("felt" = "felt" /\ ("merkletree" = "merkletree" \/
                                                  "merkletree" = "selector"))) /\
  ((exists s, VStr digest = VStr s) \/ ("merkletree" = "selector" /\ VStr digest = policies)).
Proof.
  apply (encodeValue_result_tag Demo.ext 4 sessionTypes "merkletree" policies
           (mkContext (Some "Session") (Some "root")) LEGACY).
  vm_compute. reflexivity.
Defined.

Lemma isParenthesized_no_star type :
  JsString.isParenthesized type = true ->
  JsString.endsWith type "*"%char = false /\ String.eqb type "enum" = false.
Proof.
  unfold JsString.isParenthesized.
  destruct type as [|a r]; [discriminate|].
  destruct (Ascii.ascii_dec a "("%char) as [->|Hne].
  - destruct r as [|b r]; [discriminate|].
    intros H. apply andb_true_iff in H. destruct H as [Hend _].
    split; [|reflexivity].
    unfold JsString.endsWith in *.
    change (JsString.lastChar (String "("%char (String b r)))
      with (JsString.lastChar (String b r)).
    destruct (JsString.lastChar (String b r)) as [c|]; [|reflexivity].
    apply Ascii.eqb_eq in Hend. subst c. reflexivity.
  - destruct a as [[] [] [] [] [] [] [] []]; try discriminate. congruence.
Qed.

(** X22.  Under the active revision a parenthesized tuple is resolved by
    the text between its parentheses taken as one name, and the legacy
    revision looks the tuple up as it stands.  A tuple of a single type
    resolves to that type.  When the inside is not declared the call
    returns its accumulator, unless the inside is a name every object
    inherits and is not in the accumulator: then the call throws a
    [TypeError].  The inside of a tuple of several types has commas and is
    no such name: if it is not declared, the tuple brings no dependency,
    even when each of its elements is declared. *)
Theorem getDependencies_tuple
    (fuel : nat) (types : Types) (type : string) (dependencies : list string)
    (contains : string) :
  JsString.isParenthesized type = true ->
  normalizeType type contains ACTIVE = JsString.slice1m1 type /\
  normalizeType type contains LEGACY = type /\
  (types !! JsString.slice1m1 type = None ->
   getDependencies (S fuel) types type dependencies contains ACTIVE
   = if Js.inheritedName (JsString.slice1m1 type)
        && negb (JsString.includes (JsString.slice1m1 type) dependencies)
     then Throw TypeError else Return dependencies) /\
  (lacks ","%char (JsString.slice1m1 type) = false ->
   Js.inheritedName (JsString.slice1m1 type) = false).
Proof.
  intros Htuple. destruct (isParenthesized_no_star type Htuple) as [Hstar Henum].
  assert (Hactive : normalizeType type contains ACTIVE = JsString.slice1m1 type).
  { unfold normalizeType. rewrite Hstar, Henum, Htuple. reflexivity. }
  split; [exact Hactive|]. split; [|split].
  - unfold normalizeType. rewrite Hstar. reflexivity.
  - intros Hnone. rewrite getDependencies_unfold, Hactive. unfold resolved, hasType.
    rewrite Hnone, bool_decide_eq_false_2 by (intros [? [=]]). cbn [orb].
    destruct (JsString.includes _ dependencies), (Js.inheritedName _); reflexivity.
  - intros Hcomma. destruct (Js.inheritedName _) eqn:E; [|reflexivity].
    apply inheritedName_cases in E. unfold Js.objectPrototypeNames in E.
    repeat (apply elem_of_cons in E; destruct E as [E|E];
            [rewrite E in Hcomma; discriminate Hcomma|]).
    inversion E.
Qed.

Lemma getDependencies_tuple_witness :
  getDependencies 3 pairTypes "(A,B)" [] "" ACTIVE = Return [] /\
  getDependencies 3 pairTypes "(toString)" [] "" ACTIVE = Throw TypeError /\
  getDependencies 3 pairTypes "(A)" [] "" ACTIVE = Return ["A"] /\
  getDependencies 3 pairTypes "Holder" [] "" ACTIVE = Return ["Holder"; "A"].
Proof.
  destruct (getDependencies_tuple 2 pairTypes "(A,B)" [] "" eq_refl) as (_ & _ & H & _).
  destruct (getDependencies_tuple 2 pairTypes "(toString)" [] "" eq_refl)
    as (_ & _ & H' & _).
  split; [apply H; vm_compute; reflexivity|].
  split; [apply H'; vm_compute; reflexivity|].
  split; vm_compute; reflexivity.
Defined.
